(** * OCR job pipeline: extractor, document pipeline, engine reuse, job workspace

    A shallow embedding of [ocr_extract.py], [webapp.py] and [run_flask.py].
    External collaborators (the EasyOCR engine, PyMuPDF, the [json] module,
    Python's [int] and [float] on form strings, werkzeug's [secure_filename])
    are Section variables; everything the repository itself computes is a
    definition below. The text [json.dumps] writes and [json.loads] reads is
    modelled as well, from the documentation of the module, in [PyJson].

    Conventions of the embedding:
    - a Python exception is a value [Raise e] of [result]; [try/except
      Exception] is [try_except];
    - a Python float is [pyfloat]: a finite number (held as a rational: the
      code only compares floats and passes them through), an infinity or NaN;
    - Python [str] is [string]; whitespace is Python's ASCII whitespace;
    - a [set] of language codes is a [gset string]; a directory is a
      [gmap string string] from file name to file content. *)

From Stdlib Require Import Ascii String NArith ZArith QArith.
From Stdlib Require Import DecimalString DecimalZ DecimalPos DecimalFacts.
From stdpp Require Import base option list strings gmap fin_maps.

Local Open Scope string_scope.
Local Open Scope list_scope.
Set Warnings "-register-all".

(** ** Exceptions and results *)

Inductive exn : Type :=
| TypeError (msg : string)
| ValueError (msg : string)
| AttributeError (msg : string)
| ExternalError (msg : string).

(** [str(e)] *)
Definition exn_str (e : exn) : string :=
  match e with
  | TypeError m | ValueError m | AttributeError m | ExternalError m => m
  end.

Inductive result (A : Type) : Type :=
| Ok (a : A)
| Raise (e : exn).
Arguments Ok {A} a.
Arguments Raise {A} e.

Global Instance result_ret : MRet result := fun A a => Ok a.
Global Instance result_bind : MBind result := fun A B f r =>
  match r with
  | Ok a => f a
  | Raise e => Raise e
  end.
Global Instance result_fmap : FMap result := fun A B f r =>
  match r with
  | Ok a => Ok (f a)
  | Raise e => Raise e
  end.

(** [try: r  except Exception: handler] *)
Definition try_except {A} (r : result A) (handler : exn → result A) : result A :=
  match r with
  | Ok a => Ok a
  | Raise e => handler e
  end.

Definition is_ok {A} (r : result A) : bool :=
  match r with Ok _ => true | Raise _ => false end.

(** A list comprehension whose element expression may raise: elements are
    evaluated left to right and the first exception aborts. *)
Fixpoint comprehension {A B} (f : A → result B) (l : list A) : result (list B) :=
  match l with
  | [] => Ok []
  | a :: l' => b ← f a; bs ← comprehension f l'; Ok (b :: bs)
  end.

(** ** Python strings: [str.strip] and [str.split(",")] *)

Definition isspace (c : ascii) : bool :=
  let n := N_of_ascii c in
  ((9 <=? n)%N && (n <=? 13)%N) || ((28 <=? n)%N && (n <=? 32)%N).

Fixpoint lstrip (s : string) : string :=
  match s with
  | EmptyString => EmptyString
  | String c s' => if isspace c then lstrip s' else s
  end.

Fixpoint rstrip (s : string) : string :=
  match s with
  | EmptyString => EmptyString
  | String c s' =>
      match rstrip s' with
      | EmptyString => if isspace c then EmptyString else String c EmptyString
      | r => String c r
      end
  end.

Definition strip (s : string) : string := rstrip (lstrip s).

(** [s.split(sep)] for a one-character separator; [''.split(',') == ['']]. *)
Fixpoint split (sep : ascii) (s : string) : list string :=
  match s with
  | EmptyString => [EmptyString]
  | String c s' =>
      if Ascii.eqb c sep then EmptyString :: split sep s'
      else match split sep s' with
           | h :: t => String c h :: t
           | [] => [String c EmptyString]
           end
  end.

(** Truth value of a [str]: non-empty. *)
Definition str_truthy (s : string) : bool :=
  match s with EmptyString => false | _ => true end.

Definition comma : ascii := ","%char.

(** ** Python floats

    A [float] is a finite number, an infinity or NaN. Comparisons follow
    IEEE 754: every comparison with NaN is false. *)

Inductive pyfloat : Type :=
| Fin (q : Q)
| PosInf
| NegInf
| NaN.

Coercion Fin : Q >-> pyfloat.
Bind Scope Q_scope with pyfloat.

(** [x < y] *)
Definition float_lt (x y : pyfloat) : bool :=
  match x, y with
  | NaN, _ | _, NaN => false
  | Fin a, Fin b => negb (Qle_bool b a)
  | NegInf, NegInf => false
  | NegInf, _ => true
  | _, NegInf => false
  | PosInf, _ => false
  | Fin _, PosInf => true
  end.

(** [x <= y] *)
Definition float_le (x y : pyfloat) : bool :=
  match x, y with
  | NaN, _ | _, NaN => false
  | Fin a, Fin b => Qle_bool a b
  | NegInf, _ => true
  | _, PosInf => true
  | _, _ => false
  end.

(** ** Untyped engine output

    The values the extractor receives from [reader.readtext] are untyped.
    [pyval] is the fragment its code can tell apart: what [float(v)] does,
    whether [v] has an [item] attribute, and whether [v] is iterable. *)

Inductive pyval : Type :=
| Num (x : pyfloat)    (* float, int, numpy scalar: [float(v)] returns [x] *)
| Opaque               (* [float(v)] raises; no [item]; not iterable (e.g. None) *)
| Boxed (v : pyval)    (* [float(v)] raises; [v.item()] returns the payload *)
| Seq (l : list pyval) (* list or tuple: iterable; [float(v)] raises; no [item] *).

Definition py_float (v : pyval) : result pyfloat :=
  match v with
  | Num x => Ok x
  | _ => Raise (TypeError "float() argument must be a string or a real number")
  end.

Definition hasattr_item (v : pyval) : bool :=
  match v with Boxed _ => true | _ => false end.

Definition py_item (v : pyval) : result pyval :=
  match v with
  | Boxed p => Ok p
  | _ => Raise (AttributeError "object has no attribute 'item'")
  end.

Definition hasattr_iter (v : pyval) : bool :=
  match v with Seq _ => true | _ => false end.

(** [for x in v] / [iter(v)] *)
Definition py_iter (v : pyval) : result (list pyval) :=
  match v with
  | Seq l => Ok l
  | _ => Raise (TypeError "object is not iterable")
  end.

(** [x, y = pt] *)
Definition unpack2 (pt : pyval) : result (pyval * pyval) :=
  l ← py_iter pt;
  match l with
  | [x; y] => Ok (x, y)
  | _ => Raise (ValueError "wrong number of values to unpack")
  end.

(** ** OCR Extractor ([ocr_extract._extract_page_text]) *)

Record detection : Type := Detection {
  det_text : string;
  det_confidence : pyfloat;
  det_bbox : list (list pyfloat);
}.

(** One raw engine triple [(bbox, text, confidence)]; [text] is held as its
    [str(text)] rendering. *)
Definition raw_detection : Type := pyval * string * pyval.

(** Lines 42-45. *)
Definition coerce_confidence (confidence : pyval) : result pyfloat :=
  try_except (py_float confidence)
    (fun _ => if hasattr_item confidence
              then v ← py_item confidence; py_float v
              else Ok (Fin 0)).

(** Lines 52-54: the [try] body, appending to [py_bbox]. *)
Fixpoint bbox_pairs (pts : list pyval) (py_bbox : list (list pyfloat))
  : result (list (list pyfloat)) :=
  match pts with
  | [] => Ok py_bbox
  | pt :: rest =>
      xy ← unpack2 pt;
      fx ← py_float xy.1;
      fy ← py_float xy.2;
      bbox_pairs rest (py_bbox ++ [[fx; fy]])
  end.

(** Line 57: the fallback comprehension. *)
Definition bbox_fallback (bbox : pyval) : result (list (list pyfloat)) :=
  pts ← py_iter bbox;
  comprehension
    (fun pt => comprehension py_float (if hasattr_iter pt
                                       then match pt with Seq l => l | _ => [] end
                                       else [pt]))
    pts.

(** Lines 50-57. *)
Definition normalize_bbox (bbox : pyval) : result (list (list pyfloat)) :=
  try_except (pts ← py_iter bbox; bbox_pairs pts [])
    (fun _ => bbox_fallback bbox).

(** The loop of lines 41-65, with [results] as the accumulator. *)
Fixpoint extract_loop (min_confidence : pyfloat) (raw : list raw_detection)
    (results : list detection) : result (list detection) :=
  match raw with
  | [] => Ok results
  | (bbox, text, confidence) :: rest =>
      conf_f ← coerce_confidence confidence;
      if float_lt conf_f min_confidence || negb (str_truthy (strip text))
      then extract_loop min_confidence rest results
      else
        py_bbox ← normalize_bbox bbox;
        extract_loop min_confidence rest
          (results ++ [Detection (strip text) conf_f py_bbox])
  end.

(** ** Results of the pipeline and their JSON shape *)

Record page_result : Type := PageResult {
  page_number : nat;          (* key "page" *)
  items : list detection;     (* key "items" *)
}.

(** What [json.loads] can return and [json.dumps] accepts. A [dict] keeps its
    insertion order; keys are unique. *)
Inductive json : Type :=
| JNull
| JBool (b : bool)
| JInt (z : Z)
| JFloat (x : pyfloat)
| JStr (s : string)
| JArr (l : list json)
| JObj (kv : list (string * json)).

(** The dict literal of lines 60-64. *)
Definition detection_to_json (d : detection) : json :=
  JObj [("text", JStr (det_text d));
        ("confidence", JFloat (det_confidence d));
        ("bbox", JArr (map (fun pt => JArr (map JFloat pt)) (det_bbox d)))].

(** The dict literal of lines 90-93. *)
Definition page_to_json (p : page_result) : json :=
  JObj [("page", JInt (Z.of_nat (page_number p)));
        ("items", JArr (map detection_to_json (items p)))].

Definition pages_to_json (pages : list page_result) : json :=
  JArr (map page_to_json pages).

Fixpoint assoc (k : string) (kv : list (string * json)) : option json :=
  match kv with
  | [] => None
  | (k', v) :: kv' => if String.eqb k k' then Some v else assoc k kv'
  end.

(** [d.get(k, dflt)]: only a dict has [get]. *)
Definition dict_get (d : json) (k : string) (dflt : json) : result json :=
  match d with
  | JObj kv => Ok (default dflt (assoc k kv))
  | _ => Raise (AttributeError "object has no attribute 'get'")
  end.

(** [for x in v] over a parsed JSON value. *)
Definition json_iter (v : json) : result (list json) :=
  match v with
  | JArr l => Ok l
  | JObj kv => Ok (map (fun e => JStr e.1) kv)
  | JStr s => Ok (map (fun c => JStr (String c EmptyString)) (list_ascii_of_string s))
  | _ => Raise (TypeError "object is not iterable")
  end.

(** Truth value of a parsed JSON value. *)
Definition json_truthy (v : json) : bool :=
  match v with
  | JNull => false
  | JBool b => b
  | JInt z => negb (Z.eqb z 0)
  | JFloat x => match x with Fin q => negb (Qeq_bool q 0) | _ => true end
  | JStr s => str_truthy s
  | JArr l => match l with [] => false | _ => true end
  | JObj kv => match kv with [] => false | _ => true end
  end.

(** ["\n".join(parts)]: every part must be a [str]. *)
Fixpoint join_lines (parts : list json) : result string :=
  match parts with
  | [] => Ok EmptyString
  | JStr s :: [] => Ok s
  | JStr s :: rest => t ← join_lines rest; Ok (String.append s (String "010"%char t))
  | _ :: _ => Raise (TypeError "sequence item: expected str instance")
  end.

(** ASCII [str.lower]. *)
Definition lower_char (c : ascii) : ascii :=
  let n := N_of_ascii c in
  if (65 <=? n)%N && (n <=? 90)%N then ascii_of_N (n + 32) else c.

Fixpoint lower (s : string) : string :=
  match s with
  | EmptyString => EmptyString
  | String c s' => String (lower_char c) (lower s')
  end.

(** The comprehension shared by [webapp._parse_languages],
    [ocr_extract._parse_languages] and [run_flask.main]:
    [[p.strip() for p in value.split(",") if p.strip()]]. *)
Definition split_codes (value : string) : list string :=
  omap (fun p => if str_truthy (strip p) then Some (strip p) else None)
       (split comma value).

(** [webapp._parse_languages], lines 51-54. *)
Definition _parse_languages (raw : option string) : list string :=
  let value := strip (match raw with
                      | Some r => if str_truthy r then r else "en"
                      | None => "en"
                      end) in
  let langs := split_codes value in
  match langs with [] => ["en"] | _ => langs end.

(** ** Engine instances *)

Record Reader : Type := MkReader {
  reader_langs : list string;
  reader_gpu : bool;
}.

(** Lines 97-107 of [webapp._worker]: which reader is handed to the pipeline.
    [None] makes [extract_pdf_text] construct a job-scoped one. *)
Definition select_reader (PRELOADED_READER : option Reader) (langs : list string)
  : option Reader :=
  match PRELOADED_READER with
  | Some pre =>
      if decide ((list_to_set langs : gset string) = {["en"]})
      then Some pre else None
  | None => None
  end.

(** ** Job workspaces on disk

    [UPLOADS_DIR] maps a job directory name to its files. *)

Definition read_text (uploads : gmap string (gmap string string))
    (dir file : string) : option string :=
  uploads !! dir ≫= fun d => d !! file.

Definition write_text (uploads : gmap string (gmap string string))
    (dir file content : string) : gmap string (gmap string string) :=
  <[dir := <[file := content]> (default ∅ (uploads !! dir))]> uploads.

(** [job_dir.mkdir(parents=True, exist_ok=True)] *)
Definition mkdir (uploads : gmap string (gmap string string)) (dir : string)
  : gmap string (gmap string string) :=
  match uploads !! dir with
  | Some _ => uploads
  | None => <[dir := ∅]> uploads
  end.

(** Arguments of one background thread: [(pdf_path, job_dir, languages, dpi,
    min_conf)]; both paths are determined by the job directory name. *)
Record job : Type := Job {
  job_dir : string;
  job_langs : list string;
  job_dpi : Z;
  job_min_conf : pyfloat;
}.

Record server : Type := Server {
  uploads : gmap string (gmap string string);
  threads : gmap string job;    (* workers started and not yet finished *)
}.

Record upload_request : Type := UploadRequest {
  req_file : option (string * string);   (* [request.files.get("pdf")]: name, bytes *)
  req_form : gmap string string;         (* [request.form] *)
}.

Inductive upload_response : Type :=
| Abort400 (msg : string)
| Redirect (uid : string) (s : server).

Inductive view_page : Type :=
| ProcessingPage (uid : string) (error : option string)
| ViewPage (uid : string) (pages : json) (flat_text : string).

Inductive response : Type :=
| Abort404
| Rendered (status : nat) (page : view_page)
| Error500 (e : exn).

(** ** Well-formedness of raw engine output (used to state properties) *)

Definition is_num (v : pyval) : bool :=
  match v with Num _ => true | _ => false end.

(** A point whose elements [float] accepts, whatever its arity: a scalar
    number or a sequence of numbers. *)
Definition coercible_point (pt : pyval) : bool :=
  match pt with
  | Num _ => true
  | Seq l => forallb is_num l
  | _ => false
  end.

Definition coercible_bbox (bbox : pyval) : bool :=
  match bbox with
  | Seq pts => forallb coercible_point pts
  | _ => false
  end.

Definition no_leading_space (s : string) : Prop :=
  match s with
  | EmptyString => True
  | String c _ => isspace c = false
  end.

(** What the extractor promises of a detection [d] emitted under threshold
    [m] from the raw output [raw]: it comes from a raw triple, whose coerced
    confidence, trimmed text and normalized box it carries unchanged; its
    confidence is not below [m] (so it is NaN or at least [m], unless [m] is
    NaN); its text is not empty and is trimmed. *)
Definition kept_ok (m : pyfloat) (raw : list raw_detection) (d : detection)
  : Prop :=
  (∃ bbox text confidence,
      (bbox, text, confidence) ∈ raw
      ∧ coerce_confidence confidence = Ok (det_confidence d)
      ∧ det_text d = strip text
      ∧ normalize_bbox bbox = Ok (det_bbox d))
  ∧ float_lt (det_confidence d) m = false
  ∧ (m ≠ NaN → det_confidence d = NaN ∨ float_le m (det_confidence d) = true)
  ∧ det_text d ≠ EmptyString
  ∧ strip (det_text d) = det_text d.

(** The two terminal artifacts of a job directory. *)
Definition no_artifact (ws : gmap string string) : Prop :=
  ws !! "ocr.json" = None ∧ ws !! "error.txt" = None.

Definition one_artifact (ws : gmap string string) : Prop :=
  (is_Some (ws !! "ocr.json") ∧ ws !! "error.txt" = None)
  ∨ (ws !! "ocr.json" = None ∧ is_Some (ws !! "error.txt")).

(** A job whose worker is still running has no artifact; a job whose worker
    has finished has exactly one. *)
Definition workspace_ok (s : server) : Prop :=
  ∀ uid ws, uploads s !! uid = Some ws →
            match threads s !! uid with
            | Some _ => no_artifact ws
            | None => one_artifact ws
            end.

Definition threads_ok (s : server) : Prop :=
  ∀ uid j, threads s !! uid = Some j →
           job_dir j = uid ∧ is_Some (uploads s !! uid).

Definition is_jstr (v : json) : bool :=
  match v with JStr _ => true | _ => false end.

(** ** Reference functions used to state further properties *)

(** The elements the fallback of line 57 iterates for one point. *)
Definition point_elements (pt : pyval) : list pyval :=
  match pt with
  | Seq l => l
  | _ => [pt]
  end.

(** What one raw triple contributes to the page, when nothing raises. *)
Definition emitted (m : pyfloat) (d : raw_detection) : option detection :=
  match coerce_confidence d.2 with
  | Ok q =>
      if float_lt q m || negb (str_truthy (strip d.1.2)) then None
      else match normalize_bbox d.1.1 with
           | Ok pb => Some (Detection (strip d.1.2) q pb)
           | Raise _ => None
           end
  | Raise _ => None
  end.

(** The box of [d] lists, point by point and in order, the floats of the
    elements of a raw box's points. *)
Definition flat_box_of (raw : list raw_detection) (d : detection) : Prop :=
  ∃ pts text confidence,
    (Seq pts, text, confidence) ∈ raw
    ∧ det_text d = strip text
    ∧ coerce_confidence confidence = Ok (det_confidence d)
    ∧ Forall2 (fun pt out =>
                 Forall2 (fun v x => py_float v = Ok x) (point_elements pt) out)
              pts (det_bbox d).

(** Apply [g] to the last element of a list. *)
Fixpoint map_last {A} (g : A → A) (l : list A) : list A :=
  match l with
  | [] => []
  | [x] => [g x]
  | x :: l' => x :: map_last g l'
  end.

Module OcrExtract.

(** [ocr_extract._parse_languages], lines 98-102, the [--languages]
    argument type of the command line; [argparse.ArgumentTypeError] is
    rendered as [ExternalError]. *)
Definition _parse_languages (value : string) : result (list string) :=
  let languages := split_codes value in
  match languages with
  | [] => Raise (ExternalError "At least one language code must be provided.")
  | _ => Ok languages
  end.

End OcrExtract.

(** Every job directory holds the uploaded document. *)
Definition documents_ok (s : server) : Prop :=
  ∀ uid ws, uploads s !! uid = Some ws → is_Some (ws !! "document.pdf").

(** The non-empty detection texts of a result, page by page, in order. *)
Definition texts_of_pages (pages : list page_result) : list string :=
  concat (map (fun p =>
                 concat (map (fun d => if str_truthy (det_text d)
                                       then [det_text d] else [])
                             (items p)))
              pages).

Definition newline : string := String "010"%char EmptyString.

(** The test applied to [EASYOCR_USE_GPU] and [FLASK_DEBUG] in
    [run_flask.main], lines 41 and 55:
    [os.getenv(name, "").strip().lower() in {"1", "true", "yes", "on"}]. *)
Definition env_flag (value : option string) : bool :=
  bool_decide (lower (strip (default EmptyString value))
                 ∈ ["1"; "true"; "yes"; "on"]).

(** Answer of the two download routes. *)
Inductive file_response : Type :=
| FileNotFound
| SendFile (content mimetype : string).

(** Parsed command-line options of [ocr_extract.main]. *)
Record cli_options : Type := CliOptions {
  opt_pdf : string;
  opt_languages : list string;
  opt_dpi : Z;
  opt_min_confidence : pyfloat;
  opt_gpu : bool;
  opt_json_out : option string;
}.

Inductive cli_outcome : Type :=
| CliUsageError (msg : string)     (* [parser.error]: exit status 2 *)
| CliRaised (e : exn)              (* uncaught exception *)
| CliDone (stdout : option string) (written : option (string * string)).

(** ** The text of the result artifact *)

(** Modelled from the spec: the [json] module at the level of text, which
    is not code of the repository. The result artifact is JSON text (section 6),
    written by [json.dumps(pages, indent=2)] and read back by [json.loads].
    Their behaviour is taken
    from the documentation of Python's [json] module: [dumps] with
    [ensure_ascii] and [allow_nan] at their defaults, an indentation of two
    spaces per level and the separators [","] and [": "]; [loads] as the
    recursive-descent decoder of RFC 8259 text extended with [NaN],
    [Infinity] and [-Infinity]. Strings are code points up to U+00FF. The
    text of a finite float is [float_repr] (Python's [repr]) and is read back
    by [str_to_float] (Python's [float]). *)

Module PyJson.

Definition quote : ascii := "034"%char.
Definition backslash : ascii := "092"%char.
Definition line_feed : ascii := "010"%char.

Definition is_ws (c : ascii) : bool :=
  let n := N_of_ascii c in
  (n =? 32)%N || (n =? 9)%N || (n =? 10)%N || (n =? 13)%N.

Fixpoint skip_ws (s : string) : string :=
  match s with
  | EmptyString => EmptyString
  | String c s' => if is_ws c then skip_ws s' else s
  end.

Fixpoint spaces_k (n : nat) (k : string) : string :=
  match n with
  | O => k
  | S n' => String " " (spaces_k n' k)
  end.

(** A line feed and the indentation of nesting level [lvl], before [k]. *)
Definition newline_k (lvl : nat) (k : string) : string :=
  String line_feed (spaces_k (2 * lvl) k).

(** *** String literals *)

Definition hex_digit (n : N) : ascii :=
  if (n <? 10)%N then ascii_of_N (48 + n) else ascii_of_N (87 + n).

Definition hex_value (c : ascii) : option N :=
  let n := N_of_ascii c in
  if (48 <=? n)%N && (n <=? 57)%N then Some (n - 48)%N
  else if (97 <=? n)%N && (n <=? 102)%N then Some (n - 87)%N
  else if (65 <=? n)%N && (n <=? 70)%N then Some (n - 55)%N
  else None.

(** One character of a string literal as [dumps] writes it, before [k]. *)
Definition escape_char_k (c : ascii) (k : string) : string :=
  let n := N_of_ascii c in
  if (n =? 34)%N then String backslash (String quote k)
  else if (n =? 92)%N then String backslash (String backslash k)
  else if (n =? 10)%N then String backslash (String "n" k)
  else if (n =? 13)%N then String backslash (String "r" k)
  else if (n =? 9)%N then String backslash (String "t" k)
  else if (n =? 8)%N then String backslash (String "b" k)
  else if (n =? 12)%N then String backslash (String "f" k)
  else if (32 <=? n)%N && (n <=? 126)%N then String c k
  else String backslash
         (String "u" (String "0" (String "0"
            (String (hex_digit (n / 16)) (String (hex_digit (n mod 16)) k))))).

Fixpoint escape_k (s : string) (k : string) : string :=
  match s with
  | EmptyString => k
  | String c s' => escape_char_k c (escape_k s' k)
  end.

Definition string_k (s : string) (k : string) : string :=
  String quote (escape_k s (String quote k)).

Definition unescape (e : ascii) : option ascii :=
  let n := N_of_ascii e in
  if (n =? 34)%N then Some quote
  else if (n =? 92)%N then Some backslash
  else if (n =? 47)%N then Some "/"%char
  else if (n =? 98)%N then Some "008"%char
  else if (n =? 102)%N then Some "012"%char
  else if (n =? 110)%N then Some "010"%char
  else if (n =? 114)%N then Some "013"%char
  else if (n =? 116)%N then Some "009"%char
  else None.

Definition cons_char (c : ascii) (r : result (string * string))
  : result (string * string) :=
  match r with
  | Ok p => Ok (String c p.1, p.2)
  | Raise e => Raise e
  end.

(** The body of a string literal, after the opening quote: the decoded
    string and the text after the closing quote. *)
Fixpoint scan_string (s : string) : result (string * string) :=
  match s with
  | EmptyString => Raise (ValueError "Unterminated string")
  | String c s1 =>
      if Ascii.eqb c quote then Ok (EmptyString, s1)
      else if Ascii.eqb c backslash then
        match s1 with
        | EmptyString => Raise (ValueError "Unterminated string")
        | String e s2 =>
            if Ascii.eqb e "u" then
              match s2 with
              | String h1 (String h2 (String h3 (String h4 s6))) =>
                  match hex_value h1, hex_value h2, hex_value h3, hex_value h4 with
                  | Some a, Some b, Some c', Some d =>
                      let n := (((a * 16 + b) * 16 + c') * 16 + d)%N in
                      if (n <? 256)%N then cons_char (ascii_of_N n) (scan_string s6)
                      else Raise (ValueError "code point above U+00FF")
                  | _, _, _, _ => Raise (ValueError "Invalid \uXXXX escape")
                  end
              | _ => Raise (ValueError "Invalid \uXXXX escape")
              end
            else
              match unescape e with
              | Some c' => cons_char c' (scan_string s2)
              | None => Raise (ValueError "Invalid \escape")
              end
        end
      else if (N_of_ascii c <? 32)%N
      then Raise (ValueError "Invalid control character")
      else cons_char c (scan_string s1)
  end.

(** *** Numbers *)

Definition is_digit (c : ascii) : bool :=
  let n := N_of_ascii c in (48 <=? n)%N && (n <=? 57)%N.

Definition is_exp (c : ascii) : bool :=
  Ascii.eqb c "e" || Ascii.eqb c "E".

Definition is_sign (c : ascii) : bool :=
  Ascii.eqb c "+" || Ascii.eqb c "-".

Definition is_number_char (c : ascii) : bool :=
  is_digit c || is_sign c || Ascii.eqb c "." || is_exp c.

(** The longest prefix made of characters a number can hold. *)
Fixpoint span_number (s : string) : string * string :=
  match s with
  | EmptyString => (EmptyString, EmptyString)
  | String c s' =>
      if is_number_char c
      then (String c (span_number s').1, (span_number s').2)
      else (EmptyString, s)
  end.

(** The grammar of a JSON number: an optional minus sign; then a zero, or a
    non-zero digit and further digits; then optionally a point and digits;
    then optionally an exponent mark, an optional sign and digits. *)
Inductive number_state : Type :=
| NStart | NMinus | NZero | NInt | NDot | NFrac | NExp | NExpSign | NExpDigits.

Definition number_step (st : number_state) (c : ascii) : option number_state :=
  match st with
  | NStart =>
      if Ascii.eqb c "-" then Some NMinus
      else if Ascii.eqb c "0" then Some NZero
      else if is_digit c then Some NInt else None
  | NMinus =>
      if Ascii.eqb c "0" then Some NZero
      else if is_digit c then Some NInt else None
  | NZero =>
      if Ascii.eqb c "." then Some NDot
      else if is_exp c then Some NExp else None
  | NInt =>
      if is_digit c then Some NInt
      else if Ascii.eqb c "." then Some NDot
      else if is_exp c then Some NExp else None
  | NDot => if is_digit c then Some NFrac else None
  | NFrac =>
      if is_digit c then Some NFrac
      else if is_exp c then Some NExp else None
  | NExp =>
      if is_sign c then Some NExpSign
      else if is_digit c then Some NExpDigits else None
  | NExpSign => if is_digit c then Some NExpDigits else None
  | NExpDigits => if is_digit c then Some NExpDigits else None
  end.

Fixpoint number_run (st : number_state) (s : string) : option number_state :=
  match s with
  | EmptyString => Some st
  | String c s' =>
      match number_step st c with
      | Some st' => number_run st' s'
      | None => None
      end
  end.

(** [Some true]: an integer literal; [Some false]: a literal with a fraction
    or an exponent; [None]: not a number. *)
Definition number_kind (lex : string) : option bool :=
  match number_run NStart lex with
  | Some NZero | Some NInt => Some true
  | Some NFrac | Some NExpDigits => Some false
  | _ => None
  end.

Definition int_text (z : Z) : string :=
  NilZero.string_of_int (Z.to_int z).

Definition int_of_text (lex : string) : option Z :=
  option_map Z.of_int (NilZero.int_of_string lex).

Fixpoint strip_prefix (p s : string) : option string :=
  match p with
  | EmptyString => Some s
  | String a p' =>
      match s with
      | EmptyString => None
      | String b s' => if Ascii.eqb a b then strip_prefix p' s' else None
      end
  end.

(** [pairs] turned into a [dict]: a repeated key keeps its first position and
    takes the last value. *)
Fixpoint dict_set (k : string) (v : json) (kv : list (string * json))
  : list (string * json) :=
  match kv with
  | [] => [(k, v)]
  | (k', v') :: kv' =>
      if String.eqb k k' then (k', v) :: kv' else (k', v') :: dict_set k v kv'
  end.

Section Codec.

Variable float_repr : Q → string.
Variable str_to_float : string → result pyfloat.

Definition number_of_lexeme (lex : string) : result json :=
  match number_kind lex with
  | Some true =>
      match int_of_text lex with
      | Some z => Ok (JInt z)
      | None => Raise (ValueError "Expecting value")
      end
  | Some false => x ← str_to_float lex; Ok (JFloat x)
  | None => Raise (ValueError "Expecting value")
  end.

Definition float_k (x : pyfloat) (k : string) : string :=
  match x with
  | Fin q => String.append (float_repr q) k
  | PosInf => String.append "Infinity" k
  | NegInf => String.append "-Infinity" k
  | NaN => String.append "NaN" k
  end.

(** The elements after the first of a non-empty array, and its closing
    bracket. *)
Definition items_k (f : json → nat → string → string) (lvl : nat)
  : list json → string → string :=
  fix go (l : list json) (k : string) : string :=
    match l with
    | [] => newline_k lvl (String "]" k)
    | e :: l' => String "," (newline_k (S lvl) (f e (S lvl) (go l' k)))
    end.

Definition member_k (f : json → nat → string → string) (lvl : nat)
    (m : string * json) (k : string) : string :=
  string_k m.1 (String ":" (String " " (f m.2 lvl k))).

Definition members_k (f : json → nat → string → string) (lvl : nat)
  : list (string * json) → string → string :=
  fix go (l : list (string * json)) (k : string) : string :=
    match l with
    | [] => newline_k lvl (String "}" k)
    | m :: l' => String "," (newline_k (S lvl) (member_k f (S lvl) m (go l' k)))
    end.

(** Modelled from the spec: the text [json.dumps] writes for [v] at nesting
    level [lvl], before [k]. *)
Fixpoint dumps_k (v : json) (lvl : nat) (k : string) {struct v} : string :=
  match v with
  | JNull => String.append "null" k
  | JBool b => String.append (if b then "true" else "false") k
  | JInt z => String.append (int_text z) k
  | JFloat x => float_k x k
  | JStr s => string_k s k
  | JArr l =>
      match l with
      | [] => String "[" (String "]" k)
      | e :: l' =>
          String "["
            (newline_k (S lvl) (dumps_k e (S lvl) (items_k dumps_k lvl l' k)))
      end
  | JObj kv =>
      match kv with
      | [] => String "{" (String "}" k)
      | m :: kv' =>
          String "{"
            (newline_k (S lvl)
               (member_k dumps_k (S lvl) m (members_k dumps_k lvl kv' k)))
      end
  end.

(** Modelled from the spec: [json.dumps(v, indent=2)]. *)
Definition dumps (v : json) : string := dumps_k v 0 EmptyString.

(** Modelled from the spec: the decoder behind [json.loads]. [fuel] bounds
    the number of nested calls, as the interpreter's recursion limit does. *)
Fixpoint parse_value (fuel : nat) (s : string) {struct fuel}
  : result (json * string) :=
  match fuel with
  | O => Raise (ExternalError "maximum recursion depth exceeded")
  | S fuel' =>
      match skip_ws s with
      | EmptyString => Raise (ValueError "Expecting value")
      | String c s1 =>
          if is_digit c || Ascii.eqb c "-" then
            let lex := (span_number (String c s1)).1 in
            let rest := (span_number (String c s1)).2 in
            if String.eqb lex "-" then
              match strip_prefix "Infinity" rest with
              | Some rest' => Ok (JFloat NegInf, rest')
              | None => Raise (ValueError "Expecting value")
              end
            else v ← number_of_lexeme lex; Ok (v, rest)
          else if Ascii.eqb c quote then
            r ← scan_string s1; Ok (JStr r.1, r.2)
          else if Ascii.eqb c "[" then
            match skip_ws s1 with
            | EmptyString => Raise (ValueError "Expecting value")
            | String c2 s2 =>
                if Ascii.eqb c2 "]" then Ok (JArr [], s2)
                else parse_items fuel' (String c2 s2) []
            end
          else if Ascii.eqb c "{" then
            match skip_ws s1 with
            | EmptyString =>
                Raise (ValueError "Expecting property name enclosed in double quotes")
            | String c2 s2 =>
                if Ascii.eqb c2 "}" then Ok (JObj [], s2)
                else parse_members fuel' (String c2 s2) []
            end
          else
            match strip_prefix "null" (String c s1) with
            | Some rest => Ok (JNull, rest)
            | None =>
            match strip_prefix "true" (String c s1) with
            | Some rest => Ok (JBool true, rest)
            | None =>
            match strip_prefix "false" (String c s1) with
            | Some rest => Ok (JBool false, rest)
            | None =>
            match strip_prefix "NaN" (String c s1) with
            | Some rest => Ok (JFloat NaN, rest)
            | None =>
            match strip_prefix "Infinity" (String c s1) with
            | Some rest => Ok (JFloat PosInf, rest)
            | None => Raise (ValueError "Expecting value")
            end end end end end
      end
  end
with parse_items (fuel : nat) (s : string) (acc : list json) {struct fuel}
  : result (json * string) :=
  match fuel with
  | O => Raise (ExternalError "maximum recursion depth exceeded")
  | S fuel' =>
      match parse_value fuel' s with
      | Raise e => Raise e
      | Ok (v, rest) =>
          match skip_ws rest with
          | EmptyString => Raise (ValueError "Expecting ',' delimiter")
          | String c rest' =>
              if Ascii.eqb c "," then parse_items fuel' rest' (acc ++ [v])
              else if Ascii.eqb c "]" then Ok (JArr (acc ++ [v]), rest')
              else Raise (ValueError "Expecting ',' delimiter")
          end
      end
  end
with parse_members (fuel : nat) (s : string) (acc : list (string * json))
    {struct fuel} : result (json * string) :=
  match fuel with
  | O => Raise (ExternalError "maximum recursion depth exceeded")
  | S fuel' =>
      match skip_ws s with
      | EmptyString =>
          Raise (ValueError "Expecting property name enclosed in double quotes")
      | String c s1 =>
          if negb (Ascii.eqb c quote)
          then Raise (ValueError "Expecting property name enclosed in double quotes")
          else
            match scan_string s1 with
            | Raise e => Raise e
            | Ok (key, rest) =>
                match skip_ws rest with
                | EmptyString => Raise (ValueError "Expecting ':' delimiter")
                | String c1 rest1 =>
                    if negb (Ascii.eqb c1 ":")
                    then Raise (ValueError "Expecting ':' delimiter")
                    else
                      match parse_value fuel' rest1 with
                      | Raise e => Raise e
                      | Ok (v, rest2) =>
                          match skip_ws rest2 with
                          | EmptyString =>
                              Raise (ValueError "Expecting ',' delimiter")
                          | String c2 rest3 =>
                              if Ascii.eqb c2 ","
                              then parse_members fuel' rest3 (dict_set key v acc)
                              else if Ascii.eqb c2 "}"
                              then Ok (JObj (dict_set key v acc), rest3)
                              else Raise (ValueError "Expecting ',' delimiter")
                          end
                      end
                end
            end
      end
  end.

(** Modelled from the spec: [json.loads(s)]. The decoder is given one more
    nested call than the text has characters. *)
Definition loads (s : string) : result json :=
  match parse_value (S (String.length s)) s with
  | Raise e => Raise e
  | Ok (v, rest) =>
      match skip_ws rest with
      | EmptyString => Ok v
      | String _ _ => Raise (ValueError "Extra data")
      end
  end.

(** A text that can follow a number: it does not start with a character a
    number can hold. *)
Definition terminated (k : string) : bool :=
  match k with
  | EmptyString => true
  | String c _ => negb (is_number_char c)
  end.

(** A text whose first character opens a value. *)
Definition starts_value (s : string) : Prop :=
  match s with
  | EmptyString => False
  | String c _ => is_ws c = false ∧ Ascii.eqb c "]" = false
  end.

(** [v] is read back from its own text, whatever the nesting level and the
    text [k] after it; the decoder needs fewer nested calls than the text
    of [v] has characters. *)
Definition roundtrips (v : json) : Prop :=
  ∀ (lvl : nat) (k : string),
    String.length k < String.length (dumps_k v lvl k)
    ∧ starts_value (dumps_k v lvl k)
    ∧ (terminated k = true →
       ∀ fuel : nat,
         String.length (dumps_k v lvl k) < fuel + String.length k →
         parse_value fuel (dumps_k v lvl k) = Ok (v, k)).

End Codec.

End PyJson.

(** The finite floats of a result: confidences and box coordinates. *)
Definition floats_of_detection (d : detection) : list pyfloat :=
  det_confidence d :: concat (det_bbox d).

Definition floats_of_pages (pages : list page_result) : list pyfloat :=
  concat (map (fun p => concat (map floats_of_detection (items p))) pages).

(** What the documentation of [repr] and [float] promises of the text of a
    finite float: it is a JSON number with a fraction or an exponent, and
    [float] reads it back to the same float. *)
Definition float_text_ok (float_repr : Q → string)
    (str_to_float : string → result pyfloat) (x : pyfloat) : Prop :=
  match x with
  | Fin q =>
      PyJson.number_kind (float_repr q) = Some false
      ∧ str_to_float (float_repr q) = Ok (Fin q)
  | _ => True
  end.

(** ** A concrete environment, for running the model *)

Module Demo.

Definition load_models (langs : list string) (gpu : bool) : result unit :=
  Ok tt.

Definition quad : pyval :=
  Seq [Seq [Num 0; Num 0]; Seq [Num 10; Num 0];
       Seq [Num 10; Num 5]; Seq [Num 0; Num 5]].

(** [quad] once normalized. *)
Definition quad_box : list (list pyfloat) :=
  [[Fin 0; Fin 0]; [Fin 10; Fin 0]; [Fin 10; Fin 5]; [Fin 0; Fin 5]].

(** Pages and images are numbered; page 1 carries one detection at 0.9,
    page 3 one at 0.1, every other page none. *)
Definition readtext (r : Reader) (img : nat) : result (list raw_detection) :=
  match img with
  | 1 => Ok [(quad, "Name:", Num (9 # 10))]
  | 3 => Ok [(quad, "smudge", Num (1 # 10))]
  | _ => Ok []
  end.

Definition fitz_open (path : string) : result (list nat) :=
  if String.eqb path "corrupt/document.pdf"
  then Raise (ExternalError "cannot open broken document")
  else Ok [1; 2; 3].

Definition get_pixmap_rgb (page : nat) (zoom : Q) : result nat := Ok page.

Definition json_dumps (j : json) : string :=
  match j with JArr [] => "[]" | _ => "[...]" end.

Definition json_loads (text : string) : result json :=
  if String.eqb text "[]" then Ok (JArr [])
  else Ok (JArr [JObj [("page", JInt 1);
                       ("items", JArr [JObj [("text", JStr "Name:")]])]]).

Definition str_to_int (v : string) : result Z :=
  if String.eqb v "150" then Ok 150%Z
  else Raise (ValueError "invalid literal for int() with base 10").

Definition str_to_float (v : string) : result pyfloat :=
  if String.eqb v "0.5" then Ok (Fin (1 # 2))
  else if String.eqb v "0.9" then Ok (Fin (9 # 10))
  else if String.eqb v "0.0" then Ok (Fin 0)
  else if String.eqb v "10.0" then Ok (Fin 10)
  else if String.eqb v "5.0" then Ok (Fin 5)
  else Raise (ValueError "could not convert string to float").

(** [repr] on the floats of this environment. *)
Definition float_repr (q : Q) : string :=
  if Qeq_bool q (1 # 2) then "0.5"
  else if Qeq_bool q (9 # 10) then "0.9"
  else if Qeq_bool q 10 then "10.0"
  else if Qeq_bool q 5 then "5.0"
  else "0.0".

(** What the pipeline returns for a document of this environment at the
    default threshold. *)
Definition pages : list page_result :=
  [PageResult 1 [Detection "Name:" (9 # 10) quad_box];
   PageResult 2 []; PageResult 3 []].

Definition secure_filename (name : string) : string := name.

Definition request : upload_request :=
  UploadRequest (Some ("form.pdf", "%PDF-1.4"))
    (<["dpi" := "high"]> (<["min_conf" := "lots"]> (<["languages" := EmptyString]> ∅))).

End Demo.

Section Pipeline.

(** External collaborators. *)
Context {pdf_page image : Type}.
(** Model loading inside [easyocr.Reader(langs, gpu=...)]. *)
Variable load_models : list string → bool → result unit.
(** [reader.readtext(image_array)]. *)
Variable readtext : Reader → image → result (list raw_detection).
(** [fitz.open(pdf_path)], as the list of its pages. *)
Variable fitz_open : string → result (list pdf_page).
(** [page.get_pixmap(matrix=Matrix(zoom, zoom))] converted to an RGB array. *)
Variable get_pixmap_rgb : pdf_page → Q → result image.
(** [json.dumps(_, indent=2)] and [json.loads]. *)
Variable json_dumps : json → string.
Variable json_loads : string → result json.
(** [int(s)] and [float(s)] on a form string. *)
Variable str_to_int : string → result Z.
Variable str_to_float : string → result pyfloat.
(** [repr(x)] of a finite float, the text [json.dumps] writes for it. *)
Variable float_repr : Q → string.
(** [werkzeug.utils.secure_filename]. *)
Variable secure_filename : string → string.

Definition easyocr_Reader (langs : list string) (gpu : bool) : result Reader :=
  _ ← load_models langs gpu; Ok (MkReader langs gpu).

(** [ocr_extract._load_page_as_array], lines 18-26. *)
Definition _load_page_as_array (page : pdf_page) (dpi : Z) : result image :=
  let zoom := (inject_Z dpi / 72)%Q in
  get_pixmap_rgb page zoom.

(** [ocr_extract._extract_page_text], lines 29-66. *)
Definition _extract_page_text (reader : Reader) (image_array : image)
    (min_confidence : pyfloat) : result (list detection) :=
  raw ← readtext reader image_array;
  extract_loop min_confidence raw [].

(** The loop of lines 86-94; [page_index] is [enumerate]'s counter. *)
Fixpoint pages_loop (reader : Reader) (dpi : Z) (min_confidence : pyfloat)
    (document : list pdf_page) (page_index : nat)
    (pages_output : list page_result) : result (list page_result) :=
  match document with
  | [] => Ok pages_output
  | page :: rest =>
      image_array ← _load_page_as_array page dpi;
      entries ← _extract_page_text reader image_array min_confidence;
      pages_loop reader dpi min_confidence rest (S page_index)
        (pages_output ++ [PageResult page_index entries])
  end.

(** [ocr_extract.extract_pdf_text], lines 69-95. *)
Definition extract_pdf_text (pdf_path : string) (languages : list string)
    (dpi : Z) (min_confidence : pyfloat) (use_gpu : bool) (reader : option Reader)
  : result (list page_result) :=
  reader ← match reader with
           | Some r => Ok r
           | None => easyocr_Reader languages use_gpu
           end;
  document ← fitz_open pdf_path;
  pages_loop reader dpi min_confidence document 1 [].

(** [run_flask.main], lines 40-53: the value left in
    [webapp.PRELOADED_READER]. *)
Definition preload (EASYOCR_LANGS EASYOCR_USE_GPU : option string)
  : option Reader :=
  let preload_langs := split_codes (default "en" EASYOCR_LANGS) in
  let use_gpu :=
    bool_decide (lower (strip (default EmptyString EASYOCR_USE_GPU))
                   ∈ ["1"; "true"; "yes"; "on"]) in
  match easyocr_Reader preload_langs use_gpu with
  | Ok r => Some r
  | Raise _ => None
  end.

Definition pdf_path_of (dir : string) : string :=
  String.append dir "/document.pdf".

(** [webapp.upload._worker], lines 91-122, on the uploads directory. *)
Definition _worker (PRELOADED_READER : option Reader)
    (up : gmap string (gmap string string)) (j : job)
  : gmap string (gmap string string) :=
  match
    pages ← extract_pdf_text (pdf_path_of (job_dir j)) (job_langs j)
              (job_dpi j) (job_min_conf j) false
              (select_reader PRELOADED_READER (job_langs j));
    Ok (json_dumps (pages_to_json pages))
  with
  | Ok text => write_text up (job_dir j) "ocr.json" text
  | Raise e => write_text up (job_dir j) "error.txt" (exn_str e)
  end.

(** Lines 70-73. *)
Definition parse_dpi (form : gmap string string) : Z :=
  match match form !! "dpi" with
        | Some v => str_to_int v
        | None => Ok 300%Z
        end
  with
  | Ok dpi => dpi
  | Raise _ => 300%Z
  end.

(** Lines 74-77. *)
Definition parse_min_conf (form : gmap string string) : pyfloat :=
  match match form !! "min_conf" with
        | Some v => str_to_float v
        | None => Ok (Fin (2 # 10))
        end
  with
  | Ok min_conf => min_conf
  | Raise _ => Fin (2 # 10)
  end.

(** [webapp.upload], lines 62-131; [uid] is the value drawn from
    [uuid.uuid4().hex[:12]]. *)
Definition upload (s : server) (req : upload_request) (uid : string)
  : upload_response :=
  match req_file req with
  | None => Abort400 "Missing PDF upload under field 'pdf'."
  | Some (filename, bytes) =>
      if negb (str_truthy filename)
      then Abort400 "Missing PDF upload under field 'pdf'."
      else
        let languages := _parse_languages (req_form req !! "languages") in
        let dpi := parse_dpi (req_form req) in
        let min_conf := parse_min_conf (req_form req) in
        let up := mkdir (uploads s) uid in
        let up := write_text up uid "document.pdf" bytes in
        Redirect uid
          (Server up (<[uid := Job uid languages dpi min_conf]> (threads s)))
  end.

(** A worker thread running to completion. *)
Definition finish_worker (PRELOADED_READER : option Reader) (s : server)
    (j : job) : server :=
  Server (_worker PRELOADED_READER (uploads s) j)
         (delete (job_dir j) (threads s)).

(** The generator expression and join of [webapp.view], lines 149-154. *)
Definition item_texts (item : json) : result (list json) :=
  t ← dict_get item "text" JNull;
  if json_truthy t
  then t' ← dict_get item "text" (JStr EmptyString); Ok [t']
  else Ok [].

Definition page_texts (page : json) : result (list json) :=
  its ← dict_get page "items" (JArr []);
  l ← json_iter its;
  ll ← comprehension item_texts l;
  Ok (concat ll).

Definition flat_text_of (pages : json) : result string :=
  l ← json_iter pages;
  ll ← comprehension page_texts l;
  join_lines (concat ll).

(** [webapp.view], lines 134-161. *)
Definition view (up : gmap string (gmap string string)) (uid : string)
  : response :=
  let dir := secure_filename uid in
  match read_text up dir "document.pdf" with
  | None => Abort404
  | Some _ =>
      match read_text up dir "ocr.json" with
      | None =>
          let error_msg := read_text up dir "error.txt" in
          Rendered 202 (ProcessingPage uid error_msg)
      | Some text =>
          match pages ← json_loads text;
                flat ← flat_text_of pages;
                Ok (pages, flat)
          with
          | Ok pf => Rendered 200 (ViewPage uid pf.1 pf.2)
          | Raise e => Error500 e
          end
      end
  end.

(** Executions of the server: uploads with a fresh job id, and workers
    finishing. *)
Inductive step (PRELOADED_READER : option Reader) : server → server → Prop :=
| step_upload s req uid s' :
    uploads s !! uid = None →
    upload s req uid = Redirect uid s' →
    step PRELOADED_READER s s'
| step_worker s j :
    threads s !! job_dir j = Some j →
    step PRELOADED_READER s (finish_worker PRELOADED_READER s j).

Inductive reachable (PRELOADED_READER : option Reader) : server → Prop :=
| reach_init : reachable PRELOADED_READER (Server ∅ ∅)
| reach_step s s' :
    reachable PRELOADED_READER s →
    step PRELOADED_READER s s' →
    reachable PRELOADED_READER s'.

(** [webapp.get_pdf], lines 164-170. *)
Definition get_pdf (up : gmap string (gmap string string)) (uid : string)
  : file_response :=
  match read_text up (secure_filename uid) "document.pdf" with
  | None => FileNotFound
  | Some bytes => SendFile bytes "application/pdf"
  end.

(** [webapp.get_ocr_json], lines 173-179. *)
Definition get_ocr_json (up : gmap string (gmap string string)) (uid : string)
  : file_response :=
  match read_text up (secure_filename uid) "ocr.json" with
  | None => FileNotFound
  | Some text => SendFile text "application/json"
  end.

(** [ocr_extract.main], lines 141-162, after [parse_args]; [path_exists] is
    [Path.exists]; [print] writes its argument and a newline. *)
Definition ocr_extract_main (path_exists : string → bool)
    (options : cli_options) : cli_outcome :=
  if negb (path_exists (opt_pdf options))
  then CliUsageError (String.append "PDF not found: " (opt_pdf options))
  else
    match extract_pdf_text (opt_pdf options) (opt_languages options)
            (opt_dpi options) (opt_min_confidence options) (opt_gpu options)
            None
    with
    | Raise e => CliRaised e
    | Ok pages_output =>
        let text := json_dumps (pages_to_json pages_output) in
        match opt_json_out options with
        | Some path => CliDone None (Some (path, text))
        | None => CliDone (Some (String.append text newline)) None
        end
    end.

(** The encoder and the decoder of [PyJson] with the [repr] and the [float]
    of this section. *)
Import PyJson.

Set Warnings "-notation-for-abbreviation".
Local Notation dumps_k := (PyJson.dumps_k float_repr).
Local Notation items_k := (PyJson.items_k dumps_k).
Local Notation members_k := (PyJson.members_k dumps_k).
Local Notation member_k := (PyJson.member_k dumps_k).
Local Notation parse_value := (PyJson.parse_value str_to_float).
Local Notation parse_items := (PyJson.parse_items str_to_float).
Local Notation parse_members := (PyJson.parse_members str_to_float).
Local Notation roundtrips := (PyJson.roundtrips float_repr str_to_float).

(** ** Properties of the string helpers *)

Lemma lstrip_no_leading_space s : no_leading_space (lstrip s).
Proof.
  induction s as [|c s IH]; simpl; [exact I|].
  destruct (isspace c) eqn:Hc; [exact IH | exact Hc].
Qed.

Lemma lstrip_fixed s : no_leading_space s → lstrip s = s.
Proof. destruct s as [|c s]; simpl; [reflexivity|]. intros ->. reflexivity. Qed.

Lemma rstrip_no_leading_space s :
  no_leading_space s → no_leading_space (rstrip s).
Proof.
  destruct s as [|c s]; simpl; [trivial|]. intros Hc.
  destruct (rstrip s); simpl; [rewrite Hc|]; exact Hc.
Qed.

Lemma rstrip_idemp s : rstrip (rstrip s) = rstrip s.
Proof.
  induction s as [|c s IH]; simpl; [reflexivity|].
  destruct (rstrip s) as [|a r] eqn:Hr.
  - destruct (isspace c) eqn:Hc; simpl; [reflexivity|]. rewrite Hc. reflexivity.
  - change (rstrip (String c (String a r))) with
      (match rstrip (String a r) with
       | EmptyString => if isspace c then EmptyString else String c EmptyString
       | r' => String c r'
       end).
    rewrite IH. reflexivity.
Qed.

Lemma strip_idemp s : strip (strip s) = strip s.
Proof.
  unfold strip.
  rewrite (lstrip_fixed (rstrip (lstrip s))).
  - apply rstrip_idemp.
  - apply rstrip_no_leading_space, lstrip_no_leading_space.
Qed.

Lemma str_truthy_nonempty s : str_truthy s = true ↔ s ≠ EmptyString.
Proof. destruct s; simpl; split; congruence. Qed.

Lemma split_codes_elem value code :
  code ∈ split_codes value → code ≠ EmptyString ∧ strip code = code.
Proof.
  unfold split_codes. rewrite list_elem_of_omap. intros (p & _ & Hp).
  destruct (str_truthy (strip p)) eqn:Ht; [|discriminate].
  injection Hp as <-. split.
  - apply str_truthy_nonempty, Ht.
  - apply strip_idemp.
Qed.

Lemma split_codes_blank value :
  Forall (fun p => strip p = EmptyString) (split comma value) → split_codes value = [].
Proof.
  unfold split_codes. induction 1 as [|p l Hp _ IH]; simpl; [reflexivity|].
  rewrite Hp. simpl. exact IH.
Qed.

(** ** Properties of the extractor *)

Lemma float_lt_irrefl x : float_lt x x = false.
Proof.
  destruct x as [q| | |]; try reflexivity. simpl.
  apply negb_false_iff, Qle_bool_iff, Qle_refl.
Qed.

Lemma float_lt_false x m :
  float_lt x m = false → m ≠ NaN → x = NaN ∨ float_le m x = true.
Proof.
  destruct x as [a| | |], m as [b| | |]; simpl; intros H Hm;
    try discriminate; try contradiction;
    try (left; reflexivity); try (right; reflexivity).
  right. apply negb_false_iff in H. exact H.
Qed.

Lemma float_lt_le_trans x m1 m2 :
  float_le m1 m2 = true → float_lt x m1 = true → float_lt x m2 = true.
Proof.
  destruct x as [a| | |], m1 as [b| | |], m2 as [c| | |]; simpl;
    intros Hle Hlt; try discriminate; try reflexivity.
  apply negb_true_iff. apply negb_true_iff in Hlt.
  destruct (Qle_bool c a) eqn:Hca; [|reflexivity].
  apply Qle_bool_iff in Hle, Hca.
  assert (Hba : Qle_bool b a = true)
    by (apply Qle_bool_iff; exact (Qle_trans _ _ _ Hle Hca)).
  congruence.
Qed.

Lemma extract_loop_acc m raw acc :
  extract_loop m raw acc = (res ← extract_loop m raw []; Ok (acc ++ res)).
Proof.
  revert acc. induction raw as [|[[bbox text] confidence] rest IH]; intros acc.
  - simpl. rewrite app_nil_r. reflexivity.
  - simpl. destruct (coerce_confidence confidence) as [q|e]; simpl; [|reflexivity].
    destruct (float_lt q m || negb (str_truthy (strip text))); [apply IH|].
    destruct (normalize_bbox bbox) as [pb|e]; simpl; [|reflexivity].
    rewrite (IH (acc ++ _)), (IH [_]).
    destruct (extract_loop m rest []); simpl; [|reflexivity].
    rewrite <- app_assoc. reflexivity.
Qed.

Lemma extract_loop_app m pre post acc :
  extract_loop m (pre ++ post) acc
  = (acc' ← extract_loop m pre acc; extract_loop m post acc').
Proof.
  revert acc. induction pre as [|[[bbox text] confidence] rest IH]; intros acc.
  - reflexivity.
  - simpl. destruct (coerce_confidence confidence) as [q|e]; simpl; [|reflexivity].
    destruct (float_lt q m || negb (str_truthy (strip text))); [apply IH|].
    destruct (normalize_bbox bbox) as [pb|e]; simpl; [|reflexivity].
    apply IH.
Qed.

Lemma extract_loop_mono m raw acc res d :
  extract_loop m raw acc = Ok res → d ∈ acc → d ∈ res.
Proof.
  rewrite extract_loop_acc.
  destruct (extract_loop m raw []) as [r|e]; simpl; [|discriminate].
  intros [= <-] Hd. apply elem_of_app. left. exact Hd.
Qed.

(** Every emitted detection comes from a raw triple that passed both tests
    of line 46 and whose box was normalized. *)
Lemma extract_loop_invariant (P : detection → Prop) m raw :
  (∀ bbox text confidence q pb,
      (bbox, text, confidence) ∈ raw →
      coerce_confidence confidence = Ok q →
      float_lt q m = false → str_truthy (strip text) = true →
      normalize_bbox bbox = Ok pb →
      P (Detection (strip text) q pb)) →
  ∀ acc res, extract_loop m raw acc = Ok res → Forall P acc → Forall P res.
Proof.
  induction raw as [|[[bbox text] confidence] rest IH]; intros Hstep acc res.
  - simpl. intros [= <-]. trivial.
  - simpl. destruct (coerce_confidence confidence) as [q|e] eqn:Hq; simpl;
      [|discriminate].
    assert (Hrest : ∀ b t c q' pb,
               (b, t, c) ∈ rest → coerce_confidence c = Ok q' →
               float_lt q' m = false → str_truthy (strip t) = true →
               normalize_bbox b = Ok pb → P (Detection (strip t) q' pb)).
    { intros b t c q' pb Hin. apply Hstep. apply elem_of_cons. right. exact Hin. }
    destruct (float_lt q m) eqn:Hlt; simpl; [apply IH, Hrest|].
    destruct (str_truthy (strip text)) eqn:Ht; simpl; [|apply IH, Hrest].
    destruct (normalize_bbox bbox) as [pb|e] eqn:Hb; simpl; [|discriminate].
    intros Hres Hacc. apply (IH Hrest _ _ Hres).
    apply Forall_app. split; [exact Hacc|].
    apply Forall_cons. split; [|apply Forall_nil; exact I].
    apply (Hstep bbox text confidence); try assumption.
    apply elem_of_cons. left. reflexivity.
Qed.

Lemma extract_loop_keeps m raw bbox text confidence q pb :
  (bbox, text, confidence) ∈ raw →
  coerce_confidence confidence = Ok q →
  float_lt q m = false → strip text ≠ EmptyString →
  normalize_bbox bbox = Ok pb →
  ∀ acc res, extract_loop m raw acc = Ok res →
             Detection (strip text) q pb ∈ res.
Proof.
  intros Hin Hq Hle Ht Hb.
  induction raw as [|[[b t] c] rest IH]; intros acc res.
  - apply elem_of_nil in Hin. contradiction.
  - apply elem_of_cons in Hin. destruct Hin as [Heq|Hin].
    + injection Heq as <- <- <-. simpl. rewrite Hq. simpl.
      rewrite Hle.
      apply str_truthy_nonempty in Ht. rewrite Ht. simpl.
      rewrite Hb. simpl. intros Hres.
      apply (extract_loop_mono _ _ _ _ _ Hres).
      apply elem_of_app. right. apply elem_of_cons. left. reflexivity.
    + simpl. destruct (coerce_confidence c) as [q'|e]; simpl; [|discriminate].
      destruct (float_lt q' m || negb (str_truthy (strip t))); [apply IH, Hin|].
      destruct (normalize_bbox b) as [pb'|e]; simpl; [|discriminate].
      apply IH, Hin.
Qed.

Lemma comprehension_ok {A B} (f : A → result B) (l : list A) :
  Forall (fun a => is_ok (f a) = true) l → is_ok (comprehension f l) = true.
Proof.
  induction 1 as [|a l Ha _ IH]; simpl; [reflexivity|].
  destruct (f a); [|discriminate]. simpl.
  destruct (comprehension f l); [reflexivity|discriminate].
Qed.

Lemma bbox_fallback_ok bbox :
  coercible_bbox bbox = true → is_ok (bbox_fallback bbox) = true.
Proof.
  destruct bbox as [| | |pts]; try discriminate. simpl.
  intros Hpts. apply comprehension_ok.
  apply Forall_forall. intros pt Hpt.
  rewrite forallb_forall in Hpts.
  specialize (Hpts pt (proj1 (list_elem_of_In _ _) Hpt)).
  destruct pt as [q| | |l]; try discriminate; simpl.
  - reflexivity.
  - apply comprehension_ok. apply Forall_forall. intros x Hx.
    simpl in Hpts. rewrite forallb_forall in Hpts.
    specialize (Hpts x (proj1 (list_elem_of_In _ _) Hx)).
    destruct x; try discriminate. reflexivity.
Qed.

Lemma normalize_bbox_ok bbox :
  coercible_bbox bbox = true → is_ok (normalize_bbox bbox) = true.
Proof.
  intros H. unfold normalize_bbox.
  destruct (_ ← py_iter bbox; _) as [r|e]; simpl; [reflexivity|].
  apply bbox_fallback_ok, H.
Qed.

Lemma extract_loop_total (m : pyfloat) (raw : list raw_detection)
    (acc : list detection) :
  Forall (fun d : raw_detection =>
            is_ok (coerce_confidence d.2) = true
            ∧ coercible_bbox d.1.1 = true) raw →
  ∃ res, extract_loop m raw acc = Ok res.
Proof.
  intros H. revert acc.
  induction H as [|[[bbox text] confidence] rest [Hc Hb] _ IH]; intros acc.
  - exists acc. reflexivity.
  - simpl in Hc, Hb. simpl.
    destruct (coerce_confidence confidence) as [q|e]; [|discriminate]. simpl.
    destruct (float_lt q m || negb (str_truthy (strip text))); [apply IH|].
    pose proof (normalize_bbox_ok bbox Hb) as Hn.
    destruct (normalize_bbox bbox) as [pb|e]; [|discriminate]. simpl.
    apply IH.
Qed.

(** C3 (amended). A confidence that [float] rejects and that has no [item]
    attribute is taken as exactly 0; under a positive threshold the
    detection is then skipped and the loop goes on with the detections
    after it, as if the detection had not been there. A confidence that
    [float] rejects but that has an [item] attribute is taken as
    [float(confidence.item())]. *)
Theorem confidence_without_item_is_zero (confidence : pyval) :
  is_ok (py_float confidence) = false →
  (hasattr_item confidence = false →
     coerce_confidence confidence = Ok (Fin 0)
     ∧ ∀ m pre post bbox text acc,
         float_lt (Fin 0) m = true →
         extract_loop m (pre ++ (bbox, text, confidence) :: post) acc
         = extract_loop m (pre ++ post) acc)
  ∧ (∀ v, confidence = Boxed v → coerce_confidence confidence = py_float v).
Proof.
  intros Hf. split.
  - intros Hi.
    assert (Hc : coerce_confidence confidence = Ok (Fin 0)).
    { unfold coerce_confidence.
      destruct (py_float confidence); [discriminate|]. simpl.
      rewrite Hi. reflexivity. }
    split; [exact Hc|].
    intros m pre post bbox text acc Hm.
    rewrite !extract_loop_app.
    destruct (extract_loop m pre acc) as [acc'|e]; simpl; [|reflexivity].
    rewrite Hc. unfold mbind, result_bind. rewrite Hm. reflexivity.
  - intros v ->. reflexivity.
Qed.

(** C5 (amended). For every threshold (so for every [min_confidence] in
    [0, 1]) and every raw engine output on which the extractor returns, each
    emitted detection carries the coerced confidence, the trimmed text and the
    normalized box of one raw detection, unchanged; its confidence is not
    below the threshold, that is, unless the threshold is NaN, it is NaN or at
    least the threshold; its text is non-empty and trimmed. The confidence is
    at most 1 whenever every coerced engine confidence is; and a raw detection
    whose confidence equals the threshold exactly, with non-blank text, is
    emitted. *)
Theorem extractor_filter (m : pyfloat) (raw : list raw_detection)
    (res : list detection) :
  extract_loop m raw [] = Ok res →
  Forall (kept_ok m raw) res
  ∧ ((∀ bbox text confidence x,
        (bbox, text, confidence) ∈ raw →
        coerce_confidence confidence = Ok x → float_le x (Fin 1) = true) →
     Forall (fun d => float_le (det_confidence d) (Fin 1) = true) res)
  ∧ (∀ bbox text confidence pb,
        (bbox, text, confidence) ∈ raw →
        coerce_confidence confidence = Ok m →
        strip text ≠ EmptyString →
        normalize_bbox bbox = Ok pb →
        Detection (strip text) m pb ∈ res).
Proof.
  intros Hres. split; [|split].
  - apply (extract_loop_invariant (kept_ok m raw) m raw) with (acc := []);
      [|exact Hres|apply Forall_nil; exact I].
    intros bbox text confidence q pb Hin Hq Hlt Ht Hb.
    unfold kept_ok. simpl. split; [|split; [|split; [|split]]].
    + exists bbox, text, confidence. auto.
    + exact Hlt.
    + intros Hm. exact (float_lt_false _ _ Hlt Hm).
    + apply str_truthy_nonempty, Ht.
    + apply strip_idemp.
  - intros Hle.
    apply (extract_loop_invariant _ m raw) with (acc := []);
      [|exact Hres|apply Forall_nil; exact I].
    intros bbox text confidence q pb Hin Hq _ _ _. simpl.
    exact (Hle _ _ _ _ Hin Hq).
  - intros bbox text confidence pb Hin Hq Ht Hb.
    apply (extract_loop_keeps m raw bbox text confidence m pb Hin Hq
             (float_lt_irrefl m) Ht Hb [] res Hres).
Qed.

(** ** Properties of the document pipeline *)

Lemma pages_loop_numbers reader dpi m document page_index acc res :
  pages_loop reader dpi m document page_index acc = Ok res →
  map page_number res
  = map page_number acc ++ seq page_index (length document).
Proof.
  revert page_index acc.
  induction document as [|page rest IH]; intros page_index acc.
  - simpl. intros [= <-]. rewrite app_nil_r. reflexivity.
  - simpl. destruct (_load_page_as_array page dpi) as [img|e]; simpl;
      [|discriminate].
    destruct (_extract_page_text reader img m) as [entries|e]; simpl;
      [|discriminate].
    intros Hres. rewrite (IH _ _ Hres), map_app, <- app_assoc. reflexivity.
Qed.

(** C6. Whenever [extract_pdf_text] returns, the document was opened, the
    result has one page entry per page of the document, and the page
    numbers are 1, 2, ..., page count, in that order. *)
Theorem extract_pdf_text_pages pdf_path languages dpi m use_gpu reader res :
  extract_pdf_text pdf_path languages dpi m use_gpu reader = Ok res →
  ∃ document,
    fitz_open pdf_path = Ok document
    ∧ length res = length document
    ∧ map page_number res = seq 1 (length document).
Proof.
  unfold extract_pdf_text.
  destruct (match reader with Some r => Ok r | None => _ end) as [r|e];
    simpl; [|discriminate].
  destruct (fitz_open pdf_path) as [document|e]; simpl; [|discriminate].
  intros Hres. exists document. split; [reflexivity|].
  pose proof (pages_loop_numbers _ _ _ _ _ _ _ Hres) as Hn. simpl in Hn.
  split; [|exact Hn].
  rewrite <- (length_map page_number res), Hn. apply length_seq.
Qed.

(** ** Properties of engine selection *)

Lemma select_reader_spec pre langs :
  select_reader (Some pre) langs
  = if decide ((list_to_set langs : gset string) = {["en"]})
    then Some pre else None.
Proof. reflexivity. Qed.

Lemma select_reader_none langs : select_reader None langs = None.
Proof. reflexivity. Qed.

(** With the default environment the preloaded reader is built for
    [["en"]], and then reuse does coincide with equality of language
    sets. *)
Lemma select_reader_default_env pre langs :
  reader_langs pre = ["en"] →
  select_reader (Some pre) langs = Some pre
  ↔ (list_to_set langs : gset string) = list_to_set (reader_langs pre).
Proof.
  intros ->. rewrite select_reader_spec.
  replace (list_to_set ["en"] : gset string) with ({["en"]} : gset string)
    by set_solver.
  destruct (decide _) as [Heq|Hne]; split; intros H;
    try assumption; try reflexivity; try discriminate; contradiction.
Qed.

(** C1 at the failing input. When the process is started with
    [EASYOCR_LANGS=fr] and the model loads, the preloaded reader is built
    for French; a job asking for [en] is handed that reader although the
    language sets differ, and a job asking for exactly [fr] is not. *)
Theorem preloaded_reader_reuse_ignores_its_languages :
  load_models ["fr"] false = Ok tt →
  preload (Some "fr") None = Some (MkReader ["fr"] false)
  ∧ select_reader (preload (Some "fr") None) ["en"]
    = Some (MkReader ["fr"] false)
  ∧ (list_to_set ["en"] : gset string) ≠ list_to_set ["fr"]
  ∧ select_reader (preload (Some "fr") None) ["fr"] = None.
Proof.
  intros Hload.
  assert (Hpre : preload (Some "fr") None = Some (MkReader ["fr"] false)).
  { unfold preload, easyocr_Reader.
    change (split_codes (default "en" (Some "fr"))) with ["fr"].
    change (bool_decide _) with false.
    rewrite Hload. reflexivity. }
  rewrite Hpre. split; [reflexivity|]. split; [|split].
  - rewrite select_reader_spec.
    destruct (decide _) as [_|Hne]; [reflexivity|].
    exfalso. apply Hne. set_solver.
  - intros Heq.
    assert (Hin : "en" ∈ (list_to_set ["fr"] : gset string))
      by (rewrite <- Heq; set_solver).
    set_solver.
  - rewrite select_reader_spec.
    destruct (decide _) as [Heq|_]; [|reflexivity].
    assert (Hin : "fr" ∈ ({["en"]} : gset string))
      by (rewrite <- Heq; set_solver).
    set_solver.
Qed.

(** ** Properties of the upload route *)

(** C7. A submission that carries a file is accepted whatever its option
    values are: a [dpi] that [int] rejects becomes 300, a [min_conf] that
    [float] rejects becomes 0.2, and a missing or empty [languages] becomes
    [["en"]]; the job is started with these values. *)
Theorem malformed_options_fall_back s req uid filename bytes :
  req_file req = Some (filename, bytes) →
  filename ≠ EmptyString →
  ∃ j,
    upload s req uid
    = Redirect uid
        (Server (write_text (mkdir (uploads s) uid) uid "document.pdf" bytes)
                (<[uid := j]> (threads s)))
    ∧ (∀ v, req_form req !! "dpi" = Some v →
            is_ok (str_to_int v) = false → job_dpi j = 300%Z)
    ∧ (∀ v, req_form req !! "min_conf" = Some v →
            is_ok (str_to_float v) = false → job_min_conf j = 2 # 10)
    ∧ (req_form req !! "languages" = None
       ∨ req_form req !! "languages" = Some EmptyString →
       job_langs j = ["en"]).
Proof.
  intros Hfile Hname. unfold upload. rewrite Hfile.
  apply str_truthy_nonempty in Hname. rewrite Hname. simpl.
  eexists. split; [reflexivity|]. simpl. split; [|split].
  - intros v Hv Hbad. unfold parse_dpi. rewrite Hv.
    destruct (str_to_int v); [discriminate|reflexivity].
  - intros v Hv Hbad. unfold parse_min_conf. rewrite Hv.
    destruct (str_to_float v); [discriminate|reflexivity].
  - intros [-> | ->]; reflexivity.
Qed.

(** ** Properties of the job workspace *)

Lemma write_text_lookup (up : gmap string (gmap string string))
    dir file content dir' :
  write_text up dir file content !! dir'
  = if decide (dir = dir')
    then Some (<[file := content]> (default ∅ (up !! dir)))
    else up !! dir'.
Proof. unfold write_text. apply lookup_insert. Qed.

Lemma mkdir_fresh (up : gmap string (gmap string string)) dir :
  up !! dir = None → mkdir up dir = <[dir := ∅]> up.
Proof. unfold mkdir. intros ->. reflexivity. Qed.

Lemma worker_writes_one PRELOADED_READER
    (up : gmap string (gmap string string)) j :
  (∃ text, _worker PRELOADED_READER up j
           = write_text up (job_dir j) "ocr.json" text)
  ∨ (∃ msg, _worker PRELOADED_READER up j
            = write_text up (job_dir j) "error.txt" msg).
Proof.
  unfold _worker.
  destruct (_ ← extract_pdf_text _ _ _ _ _ _; _) as [text|e].
  - left. exists text. reflexivity.
  - right. exists (exn_str e). reflexivity.
Qed.

Lemma upload_accepted s req uid s' :
  upload s req uid = Redirect uid s' →
  ∃ bytes j,
    job_dir j = uid
    ∧ s' = Server (write_text (mkdir (uploads s) uid) uid "document.pdf" bytes)
                  (<[uid := j]> (threads s)).
Proof.
  unfold upload. destruct (req_file req) as [[filename bytes]|]; [|discriminate].
  destruct (negb (str_truthy filename)); [discriminate|].
  intros [= <-]. eexists bytes, _. split; [|reflexivity]. reflexivity.
Qed.

Lemma step_preserves PRELOADED_READER s s' :
  step PRELOADED_READER s s' →
  workspace_ok s ∧ threads_ok s → workspace_ok s' ∧ threads_ok s'.
Proof.
  intros Hstep [Hws Hth].
  destruct Hstep as [s req uid s' Hfresh Hup | s j Hj].
  - apply upload_accepted in Hup. destruct Hup as (bytes & j & Hdir & ->).
    split.
    + intros uid' ws. simpl. rewrite write_text_lookup, lookup_insert.
      destruct (decide (uid = uid')) as [<-|Hne].
      * intros [= <-]. split.
        -- rewrite lookup_insert_ne by discriminate.
           rewrite (mkdir_fresh _ _ Hfresh), lookup_insert_eq. reflexivity.
        -- rewrite lookup_insert_ne by discriminate.
           rewrite (mkdir_fresh _ _ Hfresh), lookup_insert_eq. reflexivity.
      * rewrite (mkdir_fresh _ _ Hfresh), lookup_insert_ne by exact Hne.
        apply Hws.
    + intros uid' j'. simpl. rewrite write_text_lookup, lookup_insert.
      destruct (decide (uid = uid')) as [<-|Hne].
      * intros [= <-]. split; [exact Hdir|]. eexists. reflexivity.
      * rewrite (mkdir_fresh _ _ Hfresh), lookup_insert_ne by exact Hne.
        apply Hth.
  - destruct (Hth _ _ Hj) as [_ [ws0 Hws0]].
    pose proof (Hws _ _ Hws0) as Hno. rewrite Hj in Hno.
    destruct Hno as [Hno_json Hno_err].
    split.
    + intros uid ws. unfold finish_worker. simpl.
      destruct (decide (job_dir j = uid)) as [<-|Hne].
      * rewrite lookup_delete_eq.
        destruct (worker_writes_one PRELOADED_READER (uploads s) j)
          as [[c ->]|[c ->]];
          rewrite write_text_lookup, decide_True by reflexivity;
          rewrite Hws0; simpl; intros [= <-].
        -- left. split.
           ++ rewrite lookup_insert_eq. eexists. reflexivity.
           ++ rewrite lookup_insert_ne by discriminate. exact Hno_err.
        -- right. split.
           ++ rewrite lookup_insert_ne by discriminate. exact Hno_json.
           ++ rewrite lookup_insert_eq. eexists. reflexivity.
      * rewrite lookup_delete_ne by exact Hne.
        destruct (worker_writes_one PRELOADED_READER (uploads s) j)
          as [[c ->]|[c ->]];
          rewrite write_text_lookup, decide_False by exact Hne;
          apply Hws.
    + intros uid j'. unfold finish_worker. simpl.
      destruct (decide (job_dir j = uid)) as [<-|Hne].
      * rewrite lookup_delete_eq. discriminate.
      * rewrite lookup_delete_ne by exact Hne. intros Hj'.
        destruct (Hth _ _ Hj') as [Hd Hsome]. split; [exact Hd|].
        destruct (worker_writes_one PRELOADED_READER (uploads s) j)
          as [[c ->]|[c ->]];
          rewrite write_text_lookup, decide_False by exact Hne;
          exact Hsome.
Qed.

(** C4. In every state the server reaches by accepting uploads (each under
    a fresh job id) and by workers running to completion, a job directory
    whose worker has not finished holds neither [ocr.json] nor [error.txt],
    and a job directory whose worker has finished holds exactly one of
    them, never both. *)
Theorem terminal_artifact_exclusive PRELOADED_READER s :
  reachable PRELOADED_READER s → workspace_ok s.
Proof.
  intros Hreach.
  enough (workspace_ok s ∧ threads_ok s) as [H _] by exact H.
  induction Hreach as [|s s' _ IH Hstep].
  - split.
    + intros uid ws. simpl. rewrite lookup_empty. discriminate.
    + intros uid j. simpl. rewrite lookup_empty. discriminate.
  - exact (step_preserves _ _ _ Hstep IH).
Qed.

(** ** Properties of the view route *)

Lemma comprehension_map {A B C} (f : B → result C) (h : A → B) (g : A → C)
    (l : list A) :
  (∀ a, f (h a) = Ok (g a)) → comprehension f (map h l) = Ok (map g l).
Proof.
  intros Hf. induction l as [|a l IH]; simpl; [reflexivity|].
  rewrite Hf. simpl. rewrite IH. reflexivity.
Qed.

Lemma join_lines_ok (parts : list json) :
  forallb is_jstr parts = true → is_ok (join_lines parts) = true.
Proof.
  induction parts as [|v rest IH]; simpl; [reflexivity|].
  destruct v; try discriminate. simpl. intros Hrest.
  destruct rest as [|v' rest']; [reflexivity|].
  specialize (IH Hrest). destruct (join_lines (v' :: rest')); [|discriminate].
  reflexivity.
Qed.

Lemma item_texts_detection d :
  item_texts (detection_to_json d)
  = Ok (if str_truthy (det_text d) then [JStr (det_text d)] else []).
Proof.
  unfold item_texts, detection_to_json. simpl.
  destruct (str_truthy (det_text d)); reflexivity.
Qed.

Lemma page_texts_page p :
  page_texts (page_to_json p)
  = Ok (concat (map (fun d => if str_truthy (det_text d)
                              then [JStr (det_text d)] else [])
                    (items p))).
Proof.
  unfold page_texts, page_to_json. simpl.
  rewrite (comprehension_map item_texts detection_to_json _ _
             item_texts_detection).
  reflexivity.
Qed.

(** The view never fails on what the pipeline produced. *)
Lemma flat_text_of_pipeline_ok (pages : list page_result) :
  is_ok (flat_text_of (pages_to_json pages)) = true.
Proof.
  unfold flat_text_of, pages_to_json. simpl.
  rewrite (comprehension_map page_texts page_to_json _ _ page_texts_page).
  simpl. apply join_lines_ok.
  induction pages as [|p ps IH]; simpl; [reflexivity|].
  rewrite forallb_app, IH, andb_true_r.
  induction (items p) as [|d ds IHd]; simpl; [reflexivity|].
  rewrite forallb_app, IHd, andb_true_r.
  destruct (str_truthy (det_text d)); reflexivity.
Qed.

(** C9. When a job directory holds the document, [ocr.json] and
    [error.txt] at once, and [ocr.json] parses and renders, the view
    answers 200 with the pages parsed from [ocr.json]; the content of
    [error.txt] plays no part in the answer. *)
Theorem view_prefers_result (up : gmap string (gmap string string))
    uid pdf text err pages flat :
  read_text up (secure_filename uid) "document.pdf" = Some pdf →
  read_text up (secure_filename uid) "ocr.json" = Some text →
  read_text up (secure_filename uid) "error.txt" = Some err →
  json_loads text = Ok pages →
  flat_text_of pages = Ok flat →
  view up uid = Rendered 200 (ViewPage uid pages flat).
Proof.
  intros Hpdf Hjson _ Hload Hflat. unfold view.
  rewrite Hpdf, Hjson, Hload. simpl. rewrite Hflat. reflexivity.
Qed.

(** C10. Whatever the raw [languages] field is (absent, empty, only
    whitespace and commas, or anything else), [_parse_languages] returns a
    non-empty list, each element of which is a non-empty code without
    surrounding whitespace; and when every comma-separated piece of the
    stripped input is blank, the result is exactly [["en"]]. *)
Theorem parse_languages_nonempty (raw : option string) :
  _parse_languages raw ≠ []
  ∧ Forall (fun code => code ≠ EmptyString ∧ strip code = code) (_parse_languages raw)
  ∧ (Forall (fun p => strip p = EmptyString)
       (split comma (strip (match raw with
                            | Some r => if str_truthy r then r else "en"
                            | None => "en"
                            end)))
     → _parse_languages raw = ["en"]).
Proof.
  unfold _parse_languages.
  set (value := strip _).
  split; [|split].
  - destruct (split_codes value); discriminate.
  - destruct (split_codes value) as [|c l] eqn:Hs.
    + cbv zeta. apply Forall_cons. split; [|apply Forall_nil; exact I].
      split; [discriminate|reflexivity].
    + rewrite <- Hs. apply Forall_forall. intros code.
      apply split_codes_elem.
  - intros Hb. rewrite (split_codes_blank _ Hb). reflexivity.
Qed.

(** ** Further properties of the extractor *)

Lemma comprehension_length {A B} (f : A → result B) l r :
  comprehension f l = Ok r → length r = length l.
Proof.
  revert r. induction l as [|a l IH]; intros r; simpl.
  - intros [= <-]. reflexivity.
  - destruct (f a) as [b|e]; simpl; [|discriminate].
    destruct (comprehension f l) as [bs|e]; simpl; [|discriminate].
    intros [= <-]. simpl. rewrite (IH bs eq_refl). reflexivity.
Qed.

Lemma comprehension_Forall2 {A B} (f : A → result B) l r :
  comprehension f l = Ok r → Forall2 (fun a b => f a = Ok b) l r.
Proof.
  revert r. induction l as [|a l IH]; intros r; simpl.
  - intros [= <-]. constructor.
  - destruct (f a) as [b|e] eqn:Hb; simpl; [|discriminate].
    destruct (comprehension f l) as [bs|e]; simpl; [|discriminate].
    intros [= <-]. constructor; [exact Hb|]. apply IH. reflexivity.
Qed.

Lemma bbox_pairs_fallback pts acc r :
  bbox_pairs pts acc = Ok r →
  ∃ tl, comprehension (fun pt => comprehension py_float (point_elements pt)) pts
        = Ok tl ∧ r = acc ++ tl.
Proof.
  revert acc r. induction pts as [|pt rest IH]; intros acc r; simpl.
  - intros [= <-]. exists []. rewrite app_nil_r. split; reflexivity.
  - destruct pt as [q| |v|l]; try discriminate. simpl.
    destruct l as [|x [|y [|z l']]]; try discriminate. simpl.
    destruct x as [qx| | |]; try discriminate. simpl.
    destruct y as [qy| | |]; try discriminate. simpl.
    intros Hr. destruct (IH _ _ Hr) as (tl & -> & ->).
    exists ([qx; qy] :: tl). rewrite <- app_assoc. split; reflexivity.
Qed.

Lemma bbox_fallback_elements pts :
  bbox_fallback (Seq pts)
  = comprehension (fun pt => comprehension py_float (point_elements pt)) pts.
Proof.
  unfold bbox_fallback. simpl.
  induction pts as [|pt rest IH]; simpl; [reflexivity|].
  rewrite IH. destruct pt; reflexivity.
Qed.

(** X1. The [try] body of lines 51-54 never decides the outcome: on every
    box, [normalize_bbox] returns or raises exactly what the fallback
    comprehension of line 57 alone would. *)
Theorem normalize_bbox_is_fallback (bbox : pyval) :
  normalize_bbox bbox = bbox_fallback bbox.
Proof.
  unfold normalize_bbox.
  destruct bbox as [q| |v|pts]; try reflexivity.
  simpl. destruct (bbox_pairs pts []) as [r|e] eqn:Hr; simpl; [|reflexivity].
  rewrite bbox_fallback_elements.
  destruct (bbox_pairs_fallback _ _ _ Hr) as (tl & -> & ->). reflexivity.
Qed.

Lemma normalize_bbox_points (bbox : pyval) (r : list (list pyfloat)) :
  normalize_bbox bbox = Ok r →
  ∃ pts, bbox = Seq pts
         ∧ Forall2 (fun pt out =>
                      Forall2 (fun v q => py_float v = Ok q)
                              (point_elements pt) out) pts r.
Proof.
  unfold normalize_bbox.
  destruct bbox as [q| |v|pts]; try discriminate.
  intros Hr. exists pts. split; [reflexivity|].
  assert (Hf : bbox_fallback (Seq pts) = Ok r).
  { simpl in Hr. destruct (bbox_pairs pts []) as [r'|e] eqn:Hp; simpl in Hr.
    - injection Hr as <-. rewrite bbox_fallback_elements.
      destruct (bbox_pairs_fallback _ _ _ Hp) as (tl & -> & ->). reflexivity.
    - exact Hr. }
  rewrite bbox_fallback_elements in Hf.
  apply comprehension_Forall2 in Hf.
  eapply Forall2_impl; [exact Hf|].
  intros pt out Hout. apply comprehension_Forall2, Hout.
Qed.

(** X2. Whenever a box is normalized, it was a sequence of points, the
    output has one entry per point in the same order, and each entry holds
    the [float] of every element of its point (of the point itself when it
    is not iterable): no coordinate is dropped, added or reordered. *)
Theorem normalize_bbox_shape (bbox : pyval) (r : list (list pyfloat)) :
  normalize_bbox bbox = Ok r →
  ∃ pts, bbox = Seq pts
         ∧ Forall2 (fun pt out =>
                      Forall2 (fun v q => py_float v = Ok q)
                              (point_elements pt) out) pts r.
Proof. exact (normalize_bbox_points bbox r). Qed.

(** C2 (amended). If every raw detection has a confidence the coercion of
    lines 42-45 accepts and a box that is a sequence of points, each point
    being a number or a sequence of numbers of any length (so not
    necessarily a 2-tuple), then the extractor does not raise and returns a
    list of detections for the page; each of them carries the trimmed text
    and the coerced confidence of a raw detection, and its box has one entry
    per point of that raw detection's box, in order, each entry being the
    flat list of the floats of the point's elements (of the point itself when
    the point is a bare number). *)
Theorem extract_total_on_coercible (m : pyfloat) (raw : list raw_detection) :
  Forall (fun d : raw_detection =>
            is_ok (coerce_confidence d.2) = true
            ∧ coercible_bbox d.1.1 = true) raw →
  ∃ res, extract_loop m raw [] = Ok res ∧ Forall (flat_box_of raw) res.
Proof.
  intros H. destruct (extract_loop_total m raw [] H) as [res Hres].
  exists res. split; [exact Hres|].
  apply (extract_loop_invariant (flat_box_of raw) m raw) with (acc := []);
    [|exact Hres|apply Forall_nil; exact I].
  intros bbox text confidence q pb Hin Hq _ _ Hb.
  destruct (normalize_bbox_points _ _ Hb) as (pts & -> & Hpts).
  exists pts, text, confidence. simpl. auto.
Qed.

Lemma bbox_pairs_wellformed (pts : list (pyfloat * pyfloat)) acc :
  bbox_pairs (map (fun p => Seq [Num p.1; Num p.2]) pts) acc
  = Ok (acc ++ map (fun p => [p.1; p.2]) pts).
Proof.
  revert acc. induction pts as [|p pts IH]; intros acc; simpl.
  - rewrite app_nil_r. reflexivity.
  - rewrite IH, <- app_assoc. reflexivity.
Qed.

(** X3. A box made of 2-element numeric points, of any number of points,
    comes out as the same coordinates, pair by pair, in the engine's order. *)
Theorem normalize_bbox_pairs (pts : list (pyfloat * pyfloat)) :
  normalize_bbox (Seq (map (fun p => Seq [Num p.1; Num p.2]) pts))
  = Ok (map (fun p => [p.1; p.2]) pts).
Proof.
  unfold normalize_bbox. simpl. rewrite bbox_pairs_wellformed. reflexivity.
Qed.

Lemma extract_loop_emitted m raw acc res :
  extract_loop m raw acc = Ok res → res = acc ++ omap (emitted m) raw.
Proof.
  revert acc res. induction raw as [|[[bbox text] confidence] rest IH];
    intros acc res; simpl.
  - intros [= <-]. rewrite app_nil_r. reflexivity.
  - unfold emitted at 1. simpl.
    destruct (coerce_confidence confidence) as [q|e]; simpl; [|discriminate].
    destruct (float_lt q m || negb (str_truthy (strip text))); [apply IH|].
    destruct (normalize_bbox bbox) as [pb|e]; simpl; [|discriminate].
    intros Hres. rewrite (IH _ _ Hres), <- app_assoc. reflexivity.
Qed.

(** X4. When the extractor returns, its output is exactly the raw triples
    that pass the filter, each converted on its own, in the order the engine
    returned them: nothing is reordered, merged or emitted twice. *)
Theorem extract_preserves_order (m : pyfloat) (raw : list raw_detection)
    (res : list detection) :
  extract_loop m raw [] = Ok res → res = omap (emitted m) raw.
Proof. intros H. apply (extract_loop_emitted m raw [] res H). Qed.

(** X5. Raising the threshold only removes detections: if the extractor
    returns [res] under [m1] and [m1 <= m2], then under [m2] it returns too,
    and its output is [res] without the detections whose confidence is below
    [m2]. *)
Theorem extract_threshold_monotone (m1 m2 : pyfloat) (raw : list raw_detection)
    (res : list detection) :
  float_le m1 m2 = true →
  extract_loop m1 raw [] = Ok res →
  extract_loop m2 raw []
  = Ok (List.filter (fun d => negb (float_lt (det_confidence d) m2)) res).
Proof.
  intros Hle. revert res.
  induction raw as [|[[bbox text] confidence] rest IH]; intros res; simpl.
  - intros [= <-]. reflexivity.
  - destruct (coerce_confidence confidence) as [q|e]; simpl; [|discriminate].
    destruct (float_lt q m1) eqn:H1; simpl.
    { rewrite (float_lt_le_trans _ _ _ Hle H1). simpl. apply IH. }
    destruct (str_truthy (strip text)); simpl;
      [|rewrite orb_true_r; apply IH].
    destruct (normalize_bbox bbox) as [pb|e]; simpl; [|discriminate].
    rewrite (extract_loop_acc m1).
    destruct (extract_loop m1 rest []) as [r1|e]; simpl; [|discriminate].
    intros [= <-]. specialize (IH r1 eq_refl).
    destruct (float_lt q m2) eqn:H2; simpl.
    + rewrite H2. simpl. exact IH.
    + rewrite (extract_loop_acc m2), IH. simpl. rewrite H2. reflexivity.
Qed.

(** ** Further properties of the document pipeline *)

Lemma pages_loop_pages reader dpi m document page_index acc res :
  pages_loop reader dpi m document page_index acc = Ok res →
  ∃ tl, res = acc ++ tl
        ∧ Forall2 (fun page pr =>
                     ∃ img, _load_page_as_array page dpi = Ok img
                            ∧ _extract_page_text reader img m = Ok (items pr))
                  document tl.
Proof.
  revert page_index acc res.
  induction document as [|page rest IH]; intros page_index acc res; simpl.
  - intros [= <-]. exists []. rewrite app_nil_r. split; [reflexivity|constructor].
  - destruct (_load_page_as_array page dpi) as [img|e] eqn:Himg; simpl;
      [|discriminate].
    destruct (_extract_page_text reader img m) as [entries|e] eqn:He; simpl;
      [|discriminate].
    intros Hres. destruct (IH _ _ _ Hres) as (tl & -> & Htl).
    exists (PageResult page_index entries :: tl).
    rewrite <- app_assoc. split; [reflexivity|].
    constructor; [|exact Htl]. exists img. split; [exact Himg|exact He].
Qed.

(** X6. Whenever [extract_pdf_text] returns, every page of the document was
    rasterized at the requested dpi and read by one and the same reader under
    the requested threshold, and the entry at each position holds exactly
    the detections of the page at that position. The reader is the supplied
    one when there is one, else one constructed for the job's languages. *)
Theorem extract_pdf_text_per_page pdf_path languages dpi m use_gpu reader res :
  extract_pdf_text pdf_path languages dpi m use_gpu reader = Ok res →
  ∃ r document,
    match reader with
    | Some r' => r = r'
    | None => easyocr_Reader languages use_gpu = Ok r
    end
    ∧ fitz_open pdf_path = Ok document
    ∧ Forall2 (fun page pr =>
                 ∃ img, _load_page_as_array page dpi = Ok img
                        ∧ _extract_page_text r img m = Ok (items pr))
              document res.
Proof.
  unfold extract_pdf_text.
  destruct (match reader with Some r => Ok r | None => _ end) as [r|e] eqn:Hr;
    simpl; [|discriminate].
  destruct (fitz_open pdf_path) as [document|e]; simpl; [|discriminate].
  intros Hres. exists r, document. split; [|split; [reflexivity|]].
  - destruct reader as [r'|]; [injection Hr as ->; reflexivity|exact Hr].
  - destruct (pages_loop_pages _ _ _ _ _ _ _ Hres) as (tl & -> & Htl).
    exact Htl.
Qed.

Lemma pages_loop_app reader dpi m pre post page_index acc :
  pages_loop reader dpi m (pre ++ post) page_index acc
  = (acc' ← pages_loop reader dpi m pre page_index acc;
     pages_loop reader dpi m post (page_index + length pre) acc').
Proof.
  revert page_index acc. induction pre as [|page rest IH];
    intros page_index acc; simpl.
  - rewrite Nat.add_0_r. reflexivity.
  - destruct (_load_page_as_array page dpi) as [img|e]; simpl; [|reflexivity].
    destruct (_extract_page_text reader img m) as [entries|e]; simpl;
      [|reflexivity].
    rewrite IH. replace (S page_index + length rest)
      with (page_index + S (length rest)) by lia. reflexivity.
Qed.

(** X7. One bad page fails the whole document: whether the reader is
    supplied or constructed for the job, when the pages before a page go
    through and that page cannot be rasterized or read, [extract_pdf_text]
    raises that page's error, whatever pages follow, and returns no partial
    result. *)
Theorem extract_pdf_text_bad_page pdf_path languages dpi m use_gpu reader r
    pre page post e :
  match reader with
  | Some r' => r = r'
  | None => easyocr_Reader languages use_gpu = Ok r
  end →
  fitz_open pdf_path = Ok (pre ++ page :: post) →
  is_ok (pages_loop r dpi m pre 1 []) = true →
  (img ← _load_page_as_array page dpi; _extract_page_text r img m) = Raise e →
  extract_pdf_text pdf_path languages dpi m use_gpu reader = Raise e.
Proof.
  intros Hreader Hopen Hpre Hbad. unfold extract_pdf_text.
  assert (Hr : match reader with
               | Some r' => Ok r'
               | None => easyocr_Reader languages use_gpu
               end = Ok r).
  { destruct reader as [r'|]; [rewrite Hreader; reflexivity|exact Hreader]. }
  rewrite Hr. simpl. rewrite Hopen. simpl.
  rewrite pages_loop_app.
  destruct (pages_loop r dpi m pre 1 []) as [acc|e']; [|discriminate]. simpl.
  destruct (_load_page_as_array page dpi) as [img|e1]; simpl in *.
  - rewrite Hbad. reflexivity.
  - injection Hbad as ->. reflexivity.
Qed.

(** ** Further properties of the language parsers *)

Lemma split_nonempty sep s : split sep s ≠ [].
Proof.
  destruct s as [|c s]; simpl; [discriminate|].
  destruct (Ascii.eqb c sep); [discriminate|].
  destruct (split sep s); discriminate.
Qed.

Lemma space_not_comma c : isspace c = true → Ascii.eqb c comma = false.
Proof.
  intros Hc. destruct (Ascii.eqb_spec c comma) as [->|]; [|reflexivity].
  discriminate Hc.
Qed.

Lemma strip_cons_space c s : isspace c = true → strip (String c s) = strip s.
Proof. unfold strip. simpl. intros ->. reflexivity. Qed.

Lemma split_codes_cons_space c s :
  isspace c = true → split_codes (String c s) = split_codes s.
Proof.
  intros Hc. unfold split_codes. simpl. rewrite (space_not_comma c Hc).
  destruct (split comma s) as [|h t] eqn:Hs.
  - exfalso. exact (split_nonempty _ _ Hs).
  - simpl. rewrite (strip_cons_space c h Hc). reflexivity.
Qed.

Lemma split_codes_lstrip s : split_codes (lstrip s) = split_codes s.
Proof.
  induction s as [|c s IH]; simpl; [reflexivity|].
  destruct (isspace c) eqn:Hc; [|reflexivity].
  rewrite IH. symmetry. apply split_codes_cons_space, Hc.
Qed.

Lemma rstrip_cons_nonspace c s :
  isspace c = false → rstrip (String c s) = String c (rstrip s).
Proof. intros Hc. simpl. destruct (rstrip s); [rewrite Hc|]; reflexivity. Qed.

Lemma lstrip_rstrip_comm s : lstrip (rstrip s) = rstrip (lstrip s).
Proof.
  induction s as [|c s IH]; [reflexivity|].
  destruct (isspace c) eqn:Hc.
  - simpl. rewrite Hc. rewrite <- IH.
    destruct (rstrip s) as [|a r]; simpl; [reflexivity|].
    rewrite Hc. reflexivity.
  - rewrite (rstrip_cons_nonspace c s Hc). simpl. rewrite Hc.
    symmetry. apply (rstrip_cons_nonspace c s Hc).
Qed.

Lemma strip_rstrip p : strip (rstrip p) = strip p.
Proof. unfold strip. rewrite lstrip_rstrip_comm. apply rstrip_idemp. Qed.

Lemma split_singleton s h : split comma s = [h] → h = s.
Proof.
  revert h. induction s as [|c s IH]; intros h; simpl.
  - intros [= <-]. reflexivity.
  - destruct (Ascii.eqb c comma).
    + intros [= _ Hs]. exfalso. exact (split_nonempty _ _ Hs).
    + destruct (split comma s) as [|h' t] eqn:Hs.
      * exfalso. exact (split_nonempty _ _ Hs).
      * intros [= <- ->]. rewrite (IH h' eq_refl). reflexivity.
Qed.

Lemma split_cons_other c s :
  Ascii.eqb c comma = false →
  split comma (String c s)
  = match split comma s with
    | h :: t => String c h :: t
    | [] => [String c EmptyString]
    end.
Proof. intros Hc. simpl. rewrite Hc. reflexivity. Qed.

Lemma split_rstrip s :
  split comma (rstrip s) = map_last rstrip (split comma s).
Proof.
  induction s as [|c s IH]; [reflexivity|].
  destruct (isspace c) eqn:Hc.
  - pose proof (space_not_comma c Hc) as Hcomma.
    rewrite (split_cons_other c s Hcomma).
    destruct (split comma s) as [|h t] eqn:Hs;
      [exfalso; exact (split_nonempty _ _ Hs)|].
    simpl rstrip. destruct (rstrip s) as [|a r] eqn:Hr.
    + rewrite Hc. simpl in IH.
      destruct t as [|h2 t2].
      * simpl in IH. injection IH as IH.
        simpl. rewrite <- IH, Hc. reflexivity.
      * simpl in IH. destruct t2; discriminate IH.
    + rewrite (split_cons_other c _ Hcomma), IH.
      destruct t as [|h2 t2].
      * simpl. pose proof (split_singleton _ _ Hs) as ->.
        rewrite Hr. reflexivity.
      * reflexivity.
  - rewrite (rstrip_cons_nonspace c s Hc).
    destruct (Ascii.eqb c comma) eqn:Hcomma.
    + simpl. rewrite Hcomma, IH.
      destruct (split comma s) as [|h t] eqn:Hs;
        [exfalso; exact (split_nonempty _ _ Hs)|]. reflexivity.
    + rewrite !(split_cons_other c _ Hcomma), IH.
      destruct (split comma s) as [|h t] eqn:Hs;
        [exfalso; exact (split_nonempty _ _ Hs)|].
      destruct t as [|h2 t2].
      * cbn [map_last]. rewrite (rstrip_cons_nonspace c h Hc). reflexivity.
      * reflexivity.
Qed.

Lemma omap_map_last {A B} (f : A → option B) (g : A → A) l :
  (∀ x, f (g x) = f x) → omap f (map_last g l) = omap f l.
Proof.
  intros Hfg. induction l as [|x l IH]; [reflexivity|].
  destruct l as [|y l].
  - simpl. rewrite Hfg. reflexivity.
  - change (map_last g (x :: y :: l)) with ([x] ++ map_last g (y :: l)).
    rewrite omap_app, IH, <- omap_app. reflexivity.
Qed.

Lemma split_codes_strip s : split_codes (strip s) = split_codes s.
Proof.
  unfold strip. rewrite <- (split_codes_lstrip s).
  generalize (lstrip s). intros t.
  unfold split_codes. rewrite split_rstrip.
  apply omap_map_last. intros p. rewrite strip_rstrip. reflexivity.
Qed.

(** X8. The command-line parser accepts a value exactly when one of its
    comma-separated pieces is not blank; what it returns is then a non-empty
    list of non-empty codes without surrounding whitespace. *)
Theorem cli_parse_languages_accepts (value : string) :
  (is_ok (OcrExtract._parse_languages value) = false
   ↔ Forall (fun p => strip p = EmptyString) (split comma value))
  ∧ ∀ langs, OcrExtract._parse_languages value = Ok langs →
             langs ≠ []
             ∧ Forall (fun code => code ≠ EmptyString ∧ strip code = code) langs.
Proof.
  unfold OcrExtract._parse_languages. split.
  - split.
    + intros Hbad. apply Forall_forall. intros p Hp.
      destruct (strip p) as [|a r] eqn:Hs; [reflexivity|]. exfalso.
      assert (Hin : strip p ∈ split_codes value).
      { unfold split_codes. apply list_elem_of_omap. exists p.
        split; [exact Hp|]. rewrite Hs. reflexivity. }
      destruct (split_codes value); [|discriminate Hbad].
      apply elem_of_nil in Hin. exact Hin.
    + intros Hb. rewrite (split_codes_blank _ Hb). reflexivity.
  - intros langs. destruct (split_codes value) as [|c l] eqn:Hs; [discriminate|].
    intros [= <-]. split; [discriminate|].
    rewrite <- Hs. apply Forall_forall. intros code. apply split_codes_elem.
Qed.

(** X9. The web parser is the command-line parser with its error replaced by
    the default: on every string it returns what the command-line parser
    returns, and [["en"]] where the command-line parser raises. (The web
    parser's stripping of the whole value changes nothing.) *)
Theorem web_parser_is_cli_parser_or_default (raw : string) :
  _parse_languages (Some raw)
  = match OcrExtract._parse_languages raw with
    | Ok langs => langs
    | Raise _ => ["en"]
    end.
Proof.
  unfold _parse_languages, OcrExtract._parse_languages.
  destruct raw as [|c raw].
  - reflexivity.
  - cbv zeta. change (str_truthy (String c raw)) with true. cbv iota.
    rewrite split_codes_strip.
    destruct (split_codes (String c raw)); reflexivity.
Qed.

(** ** Further properties of the upload route and the job workspace *)

Lemma read_text_write_text (up : gmap string (gmap string string))
    dir file content dir' file' :
  read_text (write_text up dir file content) dir' file'
  = if decide (dir = dir' ∧ file = file') then Some content
    else read_text up dir' file'.
Proof.
  unfold read_text. rewrite write_text_lookup.
  destruct (decide (dir = dir')) as [<-|Hd]; simpl.
  - rewrite lookup_insert.
    destruct (decide (file = file')) as [<-|Hf].
    + rewrite decide_True by (split; reflexivity). reflexivity.
    + rewrite decide_False by (intros [_ Heq]; contradiction).
      destruct (up !! dir); reflexivity.
  - rewrite decide_False by (intros [Heq _]; contradiction). reflexivity.
Qed.

Lemma read_text_mkdir (up : gmap string (gmap string string)) dir dir' file :
  read_text (mkdir up dir) dir' file = read_text up dir' file.
Proof.
  unfold read_text, mkdir. destruct (up !! dir) eqn:Hd; [reflexivity|].
  rewrite lookup_insert. destruct (decide (dir = dir')) as [<-|Hne]; simpl.
  - rewrite Hd. reflexivity.
  - reflexivity.
Qed.

(** X11. An accepted upload stores the uploaded bytes as [document.pdf] in
    the job's directory, whatever name the client gave the file, and leaves
    every other file of every directory, and every other job's thread, as it
    was. *)
Theorem upload_stores_document s req uid filename bytes :
  req_file req = Some (filename, bytes) →
  filename ≠ EmptyString →
  ∃ s', upload s req uid = Redirect uid s'
        ∧ read_text (uploads s') uid "document.pdf" = Some bytes
        ∧ (∀ dir file, dir ≠ uid ∨ file ≠ "document.pdf" →
             read_text (uploads s') dir file = read_text (uploads s) dir file)
        ∧ (∀ uid', uid' ≠ uid → threads s' !! uid' = threads s !! uid').
Proof.
  intros Hfile Hname. unfold upload. rewrite Hfile.
  apply str_truthy_nonempty in Hname. rewrite Hname. simpl.
  eexists. split; [reflexivity|]. simpl. split; [|split].
  - rewrite read_text_write_text, decide_True by (split; reflexivity).
    reflexivity.
  - intros dir file Hne. rewrite read_text_write_text, decide_False.
    + apply read_text_mkdir.
    + intros [<- <-]. destruct Hne as [Hne|Hne]; apply Hne; reflexivity.
  - intros uid' Hne. apply lookup_insert_ne. congruence.
Qed.

(** X12. [upload] reads three form fields only: adding or changing any
    field not named [languages], [dpi] or [min_conf] (in particular one named
    [min_confidence] or [use_gpu]) changes nothing of what it does. *)
Theorem upload_ignores_other_fields s file form uid key value :
  key ≠ "languages" → key ≠ "dpi" → key ≠ "min_conf" →
  upload s (UploadRequest file (<[key := value]> form)) uid
  = upload s (UploadRequest file form) uid.
Proof.
  intros Hl Hd Hm. unfold upload, parse_dpi, parse_min_conf. simpl.
  rewrite !lookup_insert_ne by assumption. reflexivity.
Qed.

(** X13. A [dpi] that [int] accepts and a [min_conf] that [float] accepts are
    handed to the job as they are: no range is checked, so zero or negative
    values and thresholds outside [0, 1] go through. *)
Theorem upload_passes_options_unchecked s req uid filename bytes :
  req_file req = Some (filename, bytes) →
  filename ≠ EmptyString →
  ∃ s' j,
    upload s req uid = Redirect uid s'
    ∧ threads s' !! uid = Some j
    ∧ (∀ v dpi, req_form req !! "dpi" = Some v →
                str_to_int v = Ok dpi → job_dpi j = dpi)
    ∧ (∀ v c, req_form req !! "min_conf" = Some v →
              str_to_float v = Ok c → job_min_conf j = c).
Proof.
  intros Hfile Hname. unfold upload. rewrite Hfile.
  apply str_truthy_nonempty in Hname. rewrite Hname. simpl.
  eexists _, _. split; [reflexivity|]. simpl.
  split; [apply lookup_insert_eq|]. simpl. split.
  - intros v dpi Hv Hd. unfold parse_dpi. rewrite Hv, Hd. reflexivity.
  - intros v c Hv Hc. unfold parse_min_conf. rewrite Hv, Hc. reflexivity.
Qed.

(** X14. A worker writes inside its own job directory only, and there only
    [ocr.json] or [error.txt]: every other file, the uploaded document
    included, reads the same before and after. *)
Theorem worker_touches_only_artifacts PRELOADED_READER
    (up : gmap string (gmap string string)) j dir file :
  dir ≠ job_dir j ∨ (file ≠ "ocr.json" ∧ file ≠ "error.txt") →
  read_text (_worker PRELOADED_READER up j) dir file = read_text up dir file.
Proof.
  intros Hne.
  destruct (worker_writes_one PRELOADED_READER up j) as [[c ->]|[c ->]];
    rewrite read_text_write_text; apply decide_False;
    intros [<- <-]; destruct Hne as [Hne|[Hj He]]; congruence.
Qed.

Lemma reachable_invariants PRELOADED_READER s :
  reachable PRELOADED_READER s → workspace_ok s ∧ threads_ok s.
Proof.
  induction 1 as [|s s' _ IH Hstep].
  - split; intros uid x; simpl; rewrite lookup_empty; discriminate.
  - exact (step_preserves _ _ _ Hstep IH).
Qed.

Lemma read_text_Some (up : gmap string (gmap string string)) dir file c :
  read_text up dir file = Some c ↔ ∃ ws, up !! dir = Some ws ∧ ws !! file = Some c.
Proof.
  unfold read_text. destruct (up !! dir) as [ws|]; simpl.
  - split; [intros H; exists ws; auto|]. intros (ws' & [= <-] & H). exact H.
  - split; [discriminate|]. intros (ws' & H & _). discriminate H.
Qed.

(** X15. Files are written once: along the server's executions (uploads
    under fresh job ids, workers finishing), a step never changes or removes
    a file that exists. A result or an error, once written, is final, and the
    uploaded document stays as uploaded. *)
Theorem files_are_written_once PRELOADED_READER s s' dir file content :
  reachable PRELOADED_READER s →
  step PRELOADED_READER s s' →
  read_text (uploads s) dir file = Some content →
  read_text (uploads s') dir file = Some content.
Proof.
  intros Hreach Hstep Hread.
  destruct (reachable_invariants _ _ Hreach) as [Hws Hth].
  apply read_text_Some in Hread. destruct Hread as (ws & Hdir & Hfile).
  destruct Hstep as [s req uid s' Hfresh Hup | s j Hj].
  - apply upload_accepted in Hup. destruct Hup as (bytes & j & _ & ->). simpl.
    rewrite read_text_write_text, decide_False.
    + rewrite read_text_mkdir. apply read_text_Some. eauto.
    + intros [<- _]. congruence.
  - unfold finish_worker. simpl.
    rewrite worker_touches_only_artifacts.
    + apply read_text_Some. eauto.
    + destruct (decide (dir = job_dir j)) as [->|Hne]; [right|left; exact Hne].
      pose proof (Hws _ _ Hdir) as Hno. rewrite Hj in Hno.
      destruct Hno as [Hnj Hne]. split; intros ->; congruence.
Qed.

Lemma step_documents PRELOADED_READER s s' :
  step PRELOADED_READER s s' →
  threads_ok s → documents_ok s → documents_ok s'.
Proof.
  intros Hstep Hth Hdoc uid ws.
  destruct Hstep as [s req uid0 s' Hfresh Hup | s j Hj].
  - apply upload_accepted in Hup. destruct Hup as (bytes & j & _ & ->). simpl.
    rewrite write_text_lookup.
    destruct (decide (uid0 = uid)) as [<-|Hne].
    + intros [= <-]. rewrite lookup_insert_eq. eexists. reflexivity.
    + rewrite (mkdir_fresh _ _ Hfresh), lookup_insert_ne by exact Hne.
      apply Hdoc.
  - unfold finish_worker. simpl.
    destruct (Hth _ _ Hj) as [_ [ws0 Hws0]].
    destruct (worker_writes_one PRELOADED_READER (uploads s) j)
      as [[c ->]|[c ->]];
      rewrite write_text_lookup;
      (destruct (decide (job_dir j = uid)) as [<-|Hne]; [|apply Hdoc]);
      rewrite Hws0; simpl; intros [= <-];
      rewrite lookup_insert_ne by discriminate; exact (Hdoc _ _ Hws0).
Qed.

Lemma reachable_documents PRELOADED_READER s :
  reachable PRELOADED_READER s → documents_ok s.
Proof.
  induction 1 as [|s s' Hreach IH Hstep].
  - intros uid ws. simpl. rewrite lookup_empty. discriminate.
  - apply (step_documents _ _ _ Hstep); [|exact IH].
    apply (reachable_invariants _ _ Hreach).
Qed.

(** X16. In every state the server reaches, for a job that exists (and whose
    id [secure_filename] leaves unchanged): the document download never
    answers 404, and the JSON download answers 404 exactly when the view
    answers 202 with the processing page. While the job's worker is running,
    that is what both do. *)
Theorem downloads_follow_view PRELOADED_READER s uid ws :
  reachable PRELOADED_READER s →
  secure_filename uid = uid →
  uploads s !! uid = Some ws →
  (∃ bytes, get_pdf (uploads s) uid = SendFile bytes "application/pdf")
  ∧ (get_ocr_json (uploads s) uid = FileNotFound
     ↔ ∃ err, view (uploads s) uid = Rendered 202 (ProcessingPage uid err))
  ∧ (is_Some (threads s !! uid) → get_ocr_json (uploads s) uid = FileNotFound).
Proof.
  intros Hreach Hsec Hdir.
  destruct (reachable_documents _ _ Hreach _ _ Hdir) as [bytes Hdoc].
  destruct (reachable_invariants _ _ Hreach) as [Hws _].
  assert (Hpdf : read_text (uploads s) uid "document.pdf" = Some bytes)
    by (apply read_text_Some; eauto).
  unfold get_pdf, get_ocr_json, view. rewrite Hsec, Hpdf.
  split; [eexists; reflexivity|]. split.
  - destruct (read_text (uploads s) uid "ocr.json") as [text|].
    + split; [discriminate|]. intros [err H].
      destruct (_ ← json_loads text; _); discriminate H.
    + split; [|reflexivity]. intros _. eexists. reflexivity.
  - intros [j Hj]. pose proof (Hws _ _ Hdir) as Hno. rewrite Hj in Hno.
    destruct Hno as [Hnj _]. unfold read_text. rewrite Hdir. simpl.
    rewrite Hnj. reflexivity.
Qed.

(** ** The life of a job, seen through the view route *)

Lemma join_lines_strings (l : list string) :
  join_lines (map JStr l) = Ok (String.concat newline l).
Proof.
  induction l as [|x l IH]; [reflexivity|].
  destruct l as [|y l]; [reflexivity|].
  change (join_lines (map JStr (x :: y :: l)))
    with (t ← join_lines (map JStr (y :: l));
          Ok (String.append x (String "010"%char t))).
  rewrite IH. reflexivity.
Qed.

Lemma concat_map_map {A B C} (f : B → C) (g : A → list B) (l : list A) :
  concat (map (fun a => map f (g a)) l) = map f (concat (map g l)).
Proof.
  induction l as [|a l IH]; simpl; [reflexivity|].
  rewrite IH, map_app. reflexivity.
Qed.

Lemma flat_text_of_pages_to_json (pages : list page_result) :
  flat_text_of (pages_to_json pages)
  = Ok (String.concat newline (texts_of_pages pages)).
Proof.
  unfold flat_text_of, pages_to_json. simpl.
  rewrite (comprehension_map page_texts page_to_json _ _ page_texts_page).
  simpl. rewrite <- join_lines_strings. f_equal.
  unfold texts_of_pages. rewrite <- concat_map_map. f_equal.
  apply map_ext. intros p.
  rewrite <- concat_map_map. f_equal. apply map_ext. intros d.
  destruct (str_truthy (det_text d)); reflexivity.
Qed.

(** X17. On what the pipeline produced, the view's flat text is the
    non-empty detection texts, page after page and in each page in the
    engine's order, joined by newlines; it cannot fail. *)
Theorem flat_text_of_pipeline (pages : list page_result) :
  flat_text_of (pages_to_json pages)
  = Ok (String.concat newline (texts_of_pages pages)).
Proof. exact (flat_text_of_pages_to_json pages). Qed.

Lemma fresh_upload_files s req uid s' :
  uploads s !! uid = None →
  upload s req uid = Redirect uid s' →
  (∃ bytes, read_text (uploads s') uid "document.pdf" = Some bytes)
  ∧ read_text (uploads s') uid "ocr.json" = None
  ∧ read_text (uploads s') uid "error.txt" = None.
Proof.
  intros Hfresh Hup.
  apply upload_accepted in Hup. destruct Hup as (bytes & j & _ & ->). simpl.
  assert (Hnone : ∀ file, read_text (uploads s) uid file = None).
  { intros file. unfold read_text. rewrite Hfresh. reflexivity. }
  split; [|split].
  - exists bytes. rewrite read_text_write_text.
    apply decide_True. split; reflexivity.
  - rewrite read_text_write_text, decide_False by (intros [_ H]; discriminate H).
    rewrite read_text_mkdir. apply Hnone.
  - rewrite read_text_write_text, decide_False by (intros [_ H]; discriminate H).
    rewrite read_text_mkdir. apply Hnone.
Qed.

Lemma uploaded_job s req uid s' j :
  upload s req uid = Redirect uid s' →
  threads s' !! uid = Some j → job_dir j = uid.
Proof.
  intros Hup Hj.
  apply upload_accepted in Hup. destruct Hup as (bytes & j' & Hdir & ->).
  simpl in Hj. rewrite lookup_insert_eq in Hj. injection Hj as <-. exact Hdir.
Qed.

(** X18. Right after an accepted upload under a fresh job id, the view of
    that job answers 202 with the processing page and no error. *)
Theorem view_after_upload s req uid s' :
  uploads s !! uid = None →
  secure_filename uid = uid →
  upload s req uid = Redirect uid s' →
  view (uploads s') uid = Rendered 202 (ProcessingPage uid None).
Proof.
  intros Hfresh Hsec Hup.
  destruct (fresh_upload_files _ _ _ _ Hfresh Hup) as ([b Hdoc] & Hjson & Herr).
  unfold view. rewrite Hsec, Hdoc, Hjson, Herr. reflexivity.
Qed.

(** X19. When the pipeline of a freshly uploaded job raises, the view of
    that job, once the worker has finished, still answers 202 with the
    processing page, now carrying the text of the exception, and the JSON
    download answers 404. *)
Theorem view_after_failure PRELOADED_READER s req uid s' j e :
  uploads s !! uid = None →
  secure_filename uid = uid →
  upload s req uid = Redirect uid s' →
  threads s' !! uid = Some j →
  extract_pdf_text (pdf_path_of (job_dir j)) (job_langs j) (job_dpi j)
    (job_min_conf j) false (select_reader PRELOADED_READER (job_langs j))
  = Raise e →
  view (uploads (finish_worker PRELOADED_READER s' j)) uid
  = Rendered 202 (ProcessingPage uid (Some (exn_str e)))
  ∧ get_ocr_json (uploads (finish_worker PRELOADED_READER s' j)) uid
    = FileNotFound.
Proof.
  intros Hfresh Hsec Hup Hj Hraise.
  destruct (fresh_upload_files _ _ _ _ Hfresh Hup) as ([b Hdoc] & Hjson & Herr).
  pose proof (uploaded_job _ _ _ _ _ Hup Hj) as Hdir.
  unfold finish_worker, view, get_ocr_json, _worker. simpl.
  rewrite Hraise, Hsec, Hdir. simpl.
  rewrite !read_text_write_text.
  rewrite decide_False by (intros [_ H]; discriminate H).
  rewrite decide_False by (intros [_ H]; discriminate H).
  rewrite decide_True by (split; reflexivity).
  rewrite Hdoc, Hjson. split; reflexivity.
Qed.

(** X20. When the pipeline of a freshly uploaded job returns [pages], and
    [json.loads] gives back what [json.dumps] was given for that result, the
    view of that job, once the worker has finished, answers 200 with that
    result and its flat text, and the JSON download sends the dumped text. *)
Theorem view_after_success PRELOADED_READER s req uid s' j pages :
  uploads s !! uid = None →
  secure_filename uid = uid →
  upload s req uid = Redirect uid s' →
  threads s' !! uid = Some j →
  extract_pdf_text (pdf_path_of (job_dir j)) (job_langs j) (job_dpi j)
    (job_min_conf j) false (select_reader PRELOADED_READER (job_langs j))
  = Ok pages →
  json_loads (json_dumps (pages_to_json pages)) = Ok (pages_to_json pages) →
  view (uploads (finish_worker PRELOADED_READER s' j)) uid
  = Rendered 200 (ViewPage uid (pages_to_json pages)
                    (String.concat newline (texts_of_pages pages)))
  ∧ get_ocr_json (uploads (finish_worker PRELOADED_READER s' j)) uid
    = SendFile (json_dumps (pages_to_json pages)) "application/json".
Proof.
  intros Hfresh Hsec Hup Hj Hok Hround.
  destruct (fresh_upload_files _ _ _ _ Hfresh Hup) as ([b Hdoc] & Hjson & Herr).
  pose proof (uploaded_job _ _ _ _ _ Hup Hj) as Hdir.
  unfold finish_worker, view, get_ocr_json, _worker. simpl.
  rewrite Hok, Hsec, Hdir. simpl.
  rewrite !read_text_write_text.
  rewrite decide_False by (intros [_ H]; discriminate H).
  rewrite decide_True by (split; reflexivity).
  rewrite Hdoc, Hround. simpl.
  rewrite flat_text_of_pages_to_json. split; reflexivity.
Qed.

(** ** Further properties of engine selection and of the launcher *)

(** X21. Read on the list of requested codes, the reuse test of line 103
    holds exactly when the list is non-empty and every code in it is [en]:
    repetitions do not matter, any other code, or none, forces a fresh
    reader. *)
Theorem select_reader_reuses_iff_all_en pre (langs : list string) :
  select_reader (Some pre) langs = Some pre
  ↔ langs ≠ [] ∧ Forall (fun code => code = "en") langs.
Proof.
  rewrite select_reader_spec.
  destruct (decide _) as [Heq|Hne].
  - split; [|reflexivity]. intros _. split.
    + intros ->. assert (Hin : "en" ∈ (∅ : gset string)).
      { change (∅ : gset string) with (list_to_set [] : gset string).
        rewrite Heq. set_solver. }
      set_solver.
    + apply Forall_forall. intros code Hin.
      assert (Hset : code ∈ (list_to_set langs : gset string))
        by (apply elem_of_list_to_set; exact Hin).
      rewrite Heq in Hset. set_solver.
  - split; [discriminate|]. intros [Hnil Hall]. exfalso. apply Hne.
    apply set_eq. intros x. rewrite elem_of_list_to_set, elem_of_singleton.
    rewrite Forall_forall in Hall. split.
    + apply Hall.
    + intros ->. destruct langs as [|c l]; [contradiction|].
      rewrite (Hall c) by (apply elem_of_cons; left; reflexivity).
      apply elem_of_cons. left. reflexivity.
Qed.

(** X23. With a reader preloaded for exactly the set [{en}] (the default
    environment), a job is handed the preloaded reader if and only if its
    language set equals the set the reader was built with. *)
Theorem preloaded_en_reuse_iff_same_set EASYOCR_LANGS EASYOCR_USE_GPU r langs :
  preload EASYOCR_LANGS EASYOCR_USE_GPU = Some r →
  (list_to_set (reader_langs r) : gset string) = {["en"]} →
  select_reader (preload EASYOCR_LANGS EASYOCR_USE_GPU) langs = Some r
  ↔ (list_to_set langs : gset string) = list_to_set (reader_langs r).
Proof.
  intros -> ->. rewrite select_reader_spec.
  destruct (decide _) as [Heq|Hne]; split; intros H;
    try assumption; try reflexivity; try discriminate; contradiction.
Qed.

Lemma isspace_lower_char c : isspace (lower_char c) = isspace c.
Proof. destruct c as [[] [] [] [] [] [] [] []]; reflexivity. Qed.

Lemma lower_char_idemp c : lower_char (lower_char c) = lower_char c.
Proof. destruct c as [[] [] [] [] [] [] [] []]; reflexivity. Qed.

Lemma lower_idemp s : lower (lower s) = lower s.
Proof.
  induction s as [|c s IH]; simpl; [reflexivity|].
  rewrite lower_char_idemp, IH. reflexivity.
Qed.

Lemma lstrip_lower s : lstrip (lower s) = lower (lstrip s).
Proof.
  induction s as [|c s IH]; simpl; [reflexivity|].
  rewrite isspace_lower_char. destruct (isspace c); [exact IH|reflexivity].
Qed.

Lemma rstrip_lower s : rstrip (lower s) = lower (rstrip s).
Proof.
  induction s as [|c s IH]; simpl; [reflexivity|].
  rewrite IH, isspace_lower_char.
  destruct (rstrip s); simpl; [destruct (isspace c)|]; reflexivity.
Qed.

(** X24. The environment switches of the launcher ([EASYOCR_USE_GPU],
    [FLASK_DEBUG]) ignore case and surrounding whitespace: a value, the
    value stripped and the value lower-cased all give the same answer; an
    unset variable is off. *)
Theorem env_flag_insensitive (value : string) :
  env_flag (Some (strip value)) = env_flag (Some value)
  ∧ env_flag (Some (lower value)) = env_flag (Some value)
  ∧ env_flag None = false.
Proof.
  unfold env_flag. simpl. split; [|split].
  - rewrite strip_idemp. reflexivity.
  - unfold strip. rewrite lstrip_lower, rstrip_lower, lower_idemp. reflexivity.
  - reflexivity.
Qed.

(** ** The command line *)

(** X25. The command line never calls the pipeline on a missing file: it
    stops with a usage error. On an existing file, run without [--gpu] and
    without [--json-out], what it prints is, followed by the newline that
    [print] adds, exactly the text that a web worker with no preloaded reader
    writes to [ocr.json] in an existing job directory for the same document,
    languages, dpi and threshold. *)
Theorem command_line_matches_worker path_exists options
    (up : gmap string (gmap string string)) j :
  (path_exists (opt_pdf options) = false →
   ∃ msg, ocr_extract_main path_exists options = CliUsageError msg)
  ∧ (∀ out,
       is_Some (up !! job_dir j) →
       opt_pdf options = pdf_path_of (job_dir j) →
       opt_languages options = job_langs j →
       opt_dpi options = job_dpi j →
       opt_min_confidence options = job_min_conf j →
       opt_gpu options = false →
       ocr_extract_main path_exists options = CliDone (Some out) None →
       ∃ text, out = String.append text newline
               ∧ read_text (_worker None up j) (job_dir j) "ocr.json"
                 = Some text).
Proof.
  unfold ocr_extract_main. split.
  - intros ->. simpl. eexists. reflexivity.
  - intros out _ -> -> -> -> ->.
    destruct (negb _); [discriminate|].
    unfold _worker. simpl.
    destruct (extract_pdf_text _ _ _ _ _ _) as [pages|e]; [|discriminate].
    simpl. destruct (opt_json_out options); [discriminate|].
    intros [= <-]. eexists. split; [reflexivity|].
    rewrite read_text_write_text.
    apply decide_True. split; reflexivity.
Qed.

(** ** The text of the result artifact is read back *)

Lemma length_append (s k : string) :
  String.length (String.append s k) = String.length s + String.length k.
Proof. induction s as [|c s IH]; simpl; [reflexivity | rewrite IH; reflexivity]. Qed.

Lemma length_spaces_k (n : nat) (k : string) :
  String.length (spaces_k n k) = n + String.length k.
Proof. induction n as [|n IH]; simpl; [reflexivity | rewrite IH; reflexivity]. Qed.

Lemma length_newline_k (lvl : nat) (k : string) :
  String.length (newline_k lvl k) = 1 + 2 * lvl + String.length k.
Proof. unfold newline_k. cbn [String.length]. rewrite length_spaces_k. lia. Qed.

Lemma skip_ws_spaces_k (n : nat) (k : string) :
  skip_ws (spaces_k n k) = skip_ws k.
Proof. induction n as [|n IH]; simpl; [reflexivity | exact IH]. Qed.

Lemma skip_ws_newline_k (lvl : nat) (k : string) :
  skip_ws (newline_k lvl k) = skip_ws k.
Proof. unfold newline_k. cbn [skip_ws]. simpl is_ws. cbn iota. apply skip_ws_spaces_k. Qed.

Lemma skip_ws_idem (s : string) : skip_ws (skip_ws s) = skip_ws s.
Proof.
  induction s as [|c s IH]; [reflexivity|].
  simpl. destruct (is_ws c) eqn:Hc; [exact IH|]. simpl. rewrite Hc. reflexivity.
Qed.

Lemma skip_ws_starts (s : string) : starts_value s → skip_ws s = s.
Proof. destruct s as [|c s]; [intros []|]. intros [Hc _]. simpl. rewrite Hc. reflexivity. Qed.

Lemma parse_value_skip_ws (fuel : nat) (s : string) :
  parse_value fuel (skip_ws s) = parse_value fuel s.
Proof. destruct fuel; [reflexivity|]. cbn [parse_value]. rewrite skip_ws_idem. reflexivity. Qed.

Lemma parse_items_skip_ws (fuel : nat) (s : string) (acc : list json) :
  parse_items fuel (skip_ws s) acc = parse_items fuel s acc.
Proof. destruct fuel; [reflexivity|]. cbn [PyJson.parse_items]. rewrite parse_value_skip_ws. reflexivity. Qed.

Lemma parse_members_skip_ws (fuel : nat) (s : string) (acc : list (string * json)) :
  parse_members fuel (skip_ws s) acc = parse_members fuel s acc.
Proof. destruct fuel; [reflexivity|]. cbn [PyJson.parse_members]. rewrite skip_ws_idem. reflexivity. Qed.

(** *** String literals *)

Lemma scan_string_escape_char_k (c : ascii) (k : string) :
  scan_string (escape_char_k c k) = cons_char c (scan_string k).
Proof. destruct c as [[] [] [] [] [] [] [] []]; reflexivity. Qed.

Lemma scan_string_escape_k (s k : string) :
  scan_string (escape_k s (String quote k)) = Ok (s, k).
Proof.
  induction s as [|c s IH]; [reflexivity|].
  cbn [escape_k]. rewrite scan_string_escape_char_k, IH. reflexivity.
Qed.

Lemma length_escape_char_k (c : ascii) (k : string) :
  String.length k < String.length (escape_char_k c k).
Proof. unfold escape_char_k. repeat case_match; simpl; lia. Qed.

Lemma length_escape_k (s k : string) :
  (String.length k ≤ String.length (escape_k s k))%nat.
Proof.
  induction s as [|c s IH]; simpl; [lia|].
  pose proof (length_escape_char_k c (escape_k s k)). lia.
Qed.

Lemma length_string_k (s k : string) :
  (String.length k + 2 ≤ String.length (string_k s k))%nat.
Proof.
  unfold string_k. cbn [String.length].
  pose proof (length_escape_k s (String quote k)) as H. cbn [String.length] in H. lia.
Qed.

(** *** Numbers *)

Lemma number_step_char (st st' : number_state) (c : ascii) :
  number_step st c = Some st' → is_number_char c = true.
Proof.
  unfold is_number_char.
  destruct st; simpl; repeat case_match; try discriminate; intros _;
    repeat match goal with
           | H : Ascii.eqb _ _ = true |- _ => apply Ascii.eqb_eq in H; subst
           end;
    try reflexivity;
    repeat match goal with
           | H : _ = true |- _ => rewrite H
           end;
    rewrite ?orb_true_r; reflexivity.
Qed.

Lemma span_number_run (lex : string) :
  ∀ (st st' : number_state) (k : string),
    number_run st lex = Some st' → terminated k = true →
    span_number (String.append lex k) = (lex, k).
Proof.
  induction lex as [|c lex IH]; intros st st' k Hrun Hk.
  - simpl. destruct k as [|c k]; [reflexivity|].
    simpl in Hk. apply negb_true_iff in Hk. simpl. rewrite Hk. reflexivity.
  - simpl in Hrun. destruct (number_step st c) as [st1|] eqn:Hs; [|discriminate].
    simpl. rewrite (number_step_char _ _ _ Hs), (IH _ _ _ Hrun Hk). reflexivity.
Qed.

Lemma number_kind_head (lex : string) (b : bool) :
  number_kind lex = Some b →
  ∃ c s, lex = String c s ∧ (is_digit c || Ascii.eqb c "-") = true
         ∧ String.eqb lex "-" = false.
Proof.
  unfold number_kind. destruct lex as [|c s]; [discriminate|].
  intros H. exists c, s. split; [reflexivity|]. split.
  - simpl in H. destruct (Ascii.eqb c "-"); [apply orb_true_r|].
    destruct (Ascii.eqb c "0") eqn:H0; [apply Ascii.eqb_eq in H0; subst; reflexivity|].
    destruct (is_digit c); [reflexivity | discriminate].
  - destruct (String.eqb_spec (String c s) "-") as [E|]; [|reflexivity].
    rewrite E in H. discriminate H.
Qed.

Lemma number_head_starts (c : ascii) :
  (is_digit c || Ascii.eqb c "-") = true →
  is_ws c = false ∧ Ascii.eqb c "]" = false.
Proof. destruct c as [[] [] [] [] [] [] [] []]; (discriminate || (intros _; split; reflexivity)). Qed.

Lemma parse_value_number (fuel : nat) (lex k : string) (b : bool) :
  number_kind lex = Some b → terminated k = true →
  parse_value (S fuel) (String.append lex k)
  = (v ← number_of_lexeme str_to_float lex; Ok (v, k)).
Proof.
  intros Hk Ht. destruct (number_kind_head _ _ Hk) as (c & s & -> & Hc & Hm).
  assert (span_number (String.append (String c s) k) = (String c s, k)) as Hspan.
  { unfold number_kind in Hk.
    destruct (number_run NStart (String c s)) eqn:Hr; [|discriminate].
    eapply span_number_run; eauto. }
  change (String.append (String c s) k) with (String c (String.append s k)) in *.
  destruct (number_head_starts c Hc) as [Hws _].
  cbn [PyJson.parse_value skip_ws]. rewrite Hws, Hc. cbn zeta.
  rewrite Hspan. cbn [fst snd]. rewrite Hm. reflexivity.
Qed.

Lemma roundtrips_number (v : json) (lex : string) (b : bool) :
  (∀ lvl k, dumps_k v lvl k = String.append lex k) →
  number_kind lex = Some b → number_of_lexeme str_to_float lex = Ok v →
  roundtrips v.
Proof.
  intros Htext Hk Hv lvl k. rewrite Htext, length_append.
  destruct (number_kind_head _ _ Hk) as (c & s & E & Hc & _).
  split; [rewrite E; simpl; lia|]. split.
  - rewrite E. exact (number_head_starts c Hc).
  - intros Ht fuel Hfuel. destruct fuel as [|fuel]; [rewrite E in Hfuel; simpl in Hfuel; lia|].
    rewrite (parse_value_number _ _ _ _ Hk Ht), Hv. reflexivity.
Qed.

Lemma number_run_digits (d : Decimal.uint) :
  number_run NInt (NilEmpty.string_of_uint d) = Some NInt.
Proof. induction d; simpl; auto. Qed.

Lemma to_uint_head (p : positive) :
  match Pos.to_uint p with
  | Decimal.Nil | Decimal.D0 _ => False
  | _ => True
  end.
Proof.
  pose proof (DecimalPos.Unsigned.to_uint_nonnil p) as Hnil.
  pose proof (DecimalPos.Unsigned.to_uint_nonzero p) as Hzero.
  assert (Decimal.unorm (Pos.to_uint p) = Pos.to_uint p) as Hnorm.
  { rewrite <- DecimalPos.Unsigned.to_of, DecimalPos.Unsigned.of_to. reflexivity. }
  destruct (Pos.to_uint p) as [|u|u|u|u|u|u|u|u|u|u] eqn:E; try exact I; [congruence|].
  rewrite unorm_D0 in Hnorm. unfold Decimal.unorm in Hnorm.
  pose proof (nzhead_nonzero u) as Hnz.
  destruct (Decimal.nzhead u) eqn:E2; try discriminate Hnorm; congruence.
Qed.

Lemma number_kind_int_text (z : Z) : number_kind (int_text z) = Some true.
Proof.
  unfold number_kind, int_text.
  destruct z as [|p|p]; [reflexivity| |];
    cbn [Z.to_int NilZero.string_of_int NilZero.string_of_uint];
    pose proof (to_uint_head p) as H;
    destruct (Pos.to_uint p) eqn:E; try contradiction;
    simpl; rewrite number_run_digits; reflexivity.
Qed.

Lemma int_of_text_int_text (z : Z) : int_of_text (int_text z) = Some z.
Proof.
  unfold int_of_text, int_text. rewrite NilZero.isi.
  - simpl. rewrite DecimalZ.of_to. reflexivity.
  - destruct z as [|p|p]; simpl; try discriminate.
    intros [= E]. exact (DecimalPos.Unsigned.to_uint_nonnil p E).
  - destruct z as [|p|p]; simpl; try discriminate.
    intros [= E]. exact (DecimalPos.Unsigned.to_uint_nonnil p E).
Qed.

(** *** Scalars *)

Ltac literal_length :=
  cbn [PyJson.dumps_k float_k]; rewrite ?length_append; simpl; lia.

Lemma roundtrips_int (z : Z) : roundtrips (JInt z).
Proof.
  apply (roundtrips_number _ (int_text z) true); [reflexivity | apply number_kind_int_text |].
  unfold number_of_lexeme. rewrite number_kind_int_text, int_of_text_int_text. reflexivity.
Qed.

Lemma roundtrips_float (x : pyfloat) :
  float_text_ok float_repr str_to_float x → roundtrips (JFloat x).
Proof.
  destruct x as [q| | |].
  - intros [Hk Hf].
    apply (roundtrips_number _ (float_repr q) false); [reflexivity | exact Hk |].
    unfold number_of_lexeme. rewrite Hk, Hf. reflexivity.
  - intros _ lvl k. split; [literal_length|]. split; [split; reflexivity|].
    intros _ fuel Hfuel. destruct fuel; [exfalso; revert Hfuel; literal_length | reflexivity].
  - intros _ lvl k. split; [literal_length|]. split; [split; reflexivity|].
    intros _ fuel Hfuel. destruct fuel; [exfalso; revert Hfuel; literal_length | reflexivity].
  - intros _ lvl k. split; [literal_length|]. split; [split; reflexivity|].
    intros _ fuel Hfuel. destruct fuel; [exfalso; revert Hfuel; literal_length | reflexivity].
Qed.

Lemma roundtrips_null : roundtrips JNull.
Proof.
  intros lvl k. split; [literal_length|]. split; [split; reflexivity|].
  intros _ fuel Hfuel. destruct fuel; [exfalso; revert Hfuel; literal_length | reflexivity].
Qed.

Lemma roundtrips_bool (b : bool) : roundtrips (JBool b).
Proof.
  intros lvl k. destruct b; (split; [literal_length|]); (split; [split; reflexivity|]);
    intros _ fuel Hfuel; (destruct fuel; [exfalso; revert Hfuel; literal_length | reflexivity]).
Qed.

Lemma parse_value_string (fuel : nat) (s : string) :
  parse_value (S fuel) (String quote s) = (r ← scan_string s; Ok (JStr r.1, r.2)).
Proof. reflexivity. Qed.

Lemma roundtrips_str (s : string) : roundtrips (JStr s).
Proof.
  intros lvl k. cbn [PyJson.dumps_k].
  pose proof (length_string_k s k) as Hlen.
  split; [lia|]. split; [split; reflexivity|].
  intros _ fuel Hfuel. destruct fuel; [lia|].
  unfold string_k. rewrite parse_value_string, scan_string_escape_k. reflexivity.
Qed.

(** *** Arrays *)

Lemma items_k_nil (lvl : nat) (k : string) :
  items_k lvl [] k = newline_k lvl (String "]" k).
Proof. reflexivity. Qed.

Lemma items_k_cons (lvl : nat) (e : json) (l : list json) (k : string) :
  items_k lvl (e :: l) k
  = String "," (newline_k (S lvl) (dumps_k e (S lvl) (items_k lvl l k))).
Proof. reflexivity. Qed.

Lemma dumps_k_arr_cons (e : json) (l : list json) (lvl : nat) (k : string) :
  dumps_k (JArr (e :: l)) lvl k
  = String "[" (newline_k (S lvl) (dumps_k e (S lvl) (items_k lvl l k))).
Proof. reflexivity. Qed.

Lemma parse_value_array (fuel : nat) (s : string) :
  parse_value (S fuel) (String "[" s)
  = match skip_ws s with
    | EmptyString => Raise (ValueError "Expecting value")
    | String c2 s2 =>
        if Ascii.eqb c2 "]" then Ok (JArr [], s2)
        else parse_items fuel (String c2 s2) []
    end.
Proof. reflexivity. Qed.

Lemma parse_items_S (fuel : nat) (s : string) (acc : list json) :
  parse_items (S fuel) s acc
  = match parse_value fuel s with
    | Raise e => Raise e
    | Ok (v, rest) =>
        match skip_ws rest with
        | EmptyString => Raise (ValueError "Expecting ',' delimiter")
        | String c rest' =>
            if Ascii.eqb c "," then parse_items fuel rest' (acc ++ [v])
            else if Ascii.eqb c "]" then Ok (JArr (acc ++ [v]), rest')
            else Raise (ValueError "Expecting ',' delimiter")
        end
    end.
Proof. reflexivity. Qed.

Lemma terminated_items_k (lvl : nat) (l : list json) (k : string) :
  terminated (items_k lvl l k) = true.
Proof. destruct l; reflexivity. Qed.

Lemma length_items_k (lvl : nat) (l : list json) (k : string) :
  Forall roundtrips l → String.length k < String.length (items_k lvl l k).
Proof.
  induction 1 as [|e l He _ IH].
  - rewrite items_k_nil, length_newline_k. simpl. lia.
  - rewrite items_k_cons. cbn [String.length]. rewrite length_newline_k.
    destruct (He (S lvl) (items_k lvl l k)) as [Hlen _]. lia.
Qed.

Lemma parse_items_ok (l : list json) :
  ∀ (e : json) (fuel : nat) (acc : list json) (lvl : nat) (k : string),
    roundtrips e → Forall roundtrips l → terminated k = true →
    String.length (dumps_k e (S lvl) (items_k lvl l k)) + 1 < fuel + String.length k →
    parse_items fuel (dumps_k e (S lvl) (items_k lvl l k)) acc
    = Ok (JArr (acc ++ e :: l), k).
Proof.
  induction l as [|e' l IH]; intros e fuel acc lvl k He Hl Hk Hfuel.
  - destruct (He (S lvl) (items_k lvl [] k)) as (Hlen & _ & Hp).
    pose proof (length_items_k lvl [] k Hl) as Hk1.
    destruct fuel as [|fuel]; [lia|]. rewrite parse_items_S.
    rewrite Hp; [|apply terminated_items_k | lia].
    rewrite items_k_nil, skip_ws_newline_k. reflexivity.
  - destruct (He (S lvl) (items_k lvl (e' :: l) k)) as (Hlen & _ & Hp).
    pose proof (length_items_k lvl (e' :: l) k Hl) as Hk1.
    destruct fuel as [|fuel]; [lia|]. rewrite parse_items_S.
    rewrite Hp; [|apply terminated_items_k | lia].
    rewrite items_k_cons in Hlen, Hfuel |- *. cbn [String.length] in Hlen.
    rewrite length_newline_k in Hlen.
    change (skip_ws (String "," ?s)) with (String "," s). cbn beta iota.
    change (Ascii.eqb "," ",") with true. cbn iota.
    rewrite <- parse_items_skip_ws, skip_ws_newline_k, parse_items_skip_ws.
    inversion Hl as [|? ? He' Hl']; subst.
    rewrite (IH e' fuel (acc ++ [e]) lvl k He' Hl' Hk); [|lia].
    rewrite <- app_assoc. reflexivity.
Qed.

Lemma roundtrips_arr (l : list json) : Forall roundtrips l → roundtrips (JArr l).
Proof.
  intros Hl lvl k. destruct Hl as [|e l He Hl].
  - split; [simpl; lia|]. split; [split; reflexivity|].
    intros _ fuel Hfuel. destruct fuel; [simpl in Hfuel; lia | reflexivity].
  - rewrite dumps_k_arr_cons. cbn [String.length]. rewrite length_newline_k.
    destruct (He (S lvl) (items_k lvl l k)) as (Hlen & Hstart & _).
    pose proof (length_items_k lvl l k Hl) as Hk1.
    split; [lia|]. split; [split; reflexivity|].
    intros Hk fuel Hfuel. destruct fuel as [|fuel]; [lia|].
    rewrite parse_value_array, skip_ws_newline_k, (skip_ws_starts _ Hstart).
    assert (parse_items fuel (dumps_k e (S lvl) (items_k lvl l k)) []
            = Ok (JArr (e :: l), k)) as Hitems
      by (apply (parse_items_ok l e fuel [] lvl k He Hl Hk); lia).
    destruct (dumps_k e (S lvl) (items_k lvl l k)) as [|c2 s2]; [destruct Hstart|].
    destruct Hstart as [_ ->]. exact Hitems.
Qed.

(** *** Objects *)

Lemma members_k_nil (lvl : nat) (k : string) :
  members_k lvl [] k = newline_k lvl (String "}" k).
Proof. reflexivity. Qed.

Lemma members_k_cons (lvl : nat) (m : string * json) (l : list (string * json))
    (k : string) :
  members_k lvl (m :: l) k
  = String "," (newline_k (S lvl) (member_k (S lvl) m (members_k lvl l k))).
Proof. reflexivity. Qed.

Lemma dumps_k_obj_cons (m : string * json) (l : list (string * json)) (lvl : nat)
    (k : string) :
  dumps_k (JObj (m :: l)) lvl k
  = String "{" (newline_k (S lvl) (member_k (S lvl) m (members_k lvl l k))).
Proof. reflexivity. Qed.

Lemma parse_value_object (fuel : nat) (s : string) :
  parse_value (S fuel) (String "{" s)
  = match skip_ws s with
    | EmptyString =>
        Raise (ValueError "Expecting property name enclosed in double quotes")
    | String c2 s2 =>
        if Ascii.eqb c2 "}" then Ok (JObj [], s2)
        else parse_members fuel (String c2 s2) []
    end.
Proof. reflexivity. Qed.

Lemma parse_members_S (fuel : nat) (s : string) (acc : list (string * json)) :
  parse_members (S fuel) (String quote s) acc
  = match scan_string s with
    | Raise e => Raise e
    | Ok (key, rest) =>
        match skip_ws rest with
        | EmptyString => Raise (ValueError "Expecting ':' delimiter")
        | String c1 rest1 =>
            if negb (Ascii.eqb c1 ":")
            then Raise (ValueError "Expecting ':' delimiter")
            else
              match parse_value fuel rest1 with
              | Raise e => Raise e
              | Ok (v, rest2) =>
                  match skip_ws rest2 with
                  | EmptyString => Raise (ValueError "Expecting ',' delimiter")
                  | String c2 rest3 =>
                      if Ascii.eqb c2 ","
                      then parse_members fuel rest3 (dict_set key v acc)
                      else if Ascii.eqb c2 "}"
                      then Ok (JObj (dict_set key v acc), rest3)
                      else Raise (ValueError "Expecting ',' delimiter")
                  end
              end
        end
    end.
Proof. reflexivity. Qed.

Lemma parse_members_member (fuel : nat) (m : string * json) (lvl : nat)
    (k : string) (acc : list (string * json)) :
  parse_members (S fuel) (member_k lvl m k) acc
  = match parse_value fuel (dumps_k m.2 lvl k) with
    | Raise e => Raise e
    | Ok (v, rest2) =>
        match skip_ws rest2 with
        | EmptyString => Raise (ValueError "Expecting ',' delimiter")
        | String c2 rest3 =>
            if Ascii.eqb c2 ","
            then parse_members fuel rest3 (dict_set m.1 v acc)
            else if Ascii.eqb c2 "}"
            then Ok (JObj (dict_set m.1 v acc), rest3)
            else Raise (ValueError "Expecting ',' delimiter")
        end
    end.
Proof.
  unfold PyJson.member_k, string_k.
  rewrite parse_members_S, scan_string_escape_k.
  change (skip_ws (String ":" ?s)) with (String ":" s). cbn beta iota.
  change (negb (Ascii.eqb ":" ":")) with false. cbn iota.
  rewrite <- parse_value_skip_ws.
  change (skip_ws (String " " ?s)) with (skip_ws s).
  rewrite parse_value_skip_ws. reflexivity.
Qed.

Lemma dict_set_fresh (key : string) (v : json) (acc : list (string * json)) :
  key ∉ map fst acc → dict_set key v acc = acc ++ [(key, v)].
Proof.
  induction acc as [|[k' v'] acc IH]; intros Hfresh; [reflexivity|].
  cbn [map fst] in Hfresh. apply not_elem_of_cons in Hfresh as [Hne Hfresh].
  cbn [dict_set]. destruct (String.eqb_spec key k') as [E|_]; [contradiction|].
  rewrite (IH Hfresh). reflexivity.
Qed.

Lemma terminated_members_k (lvl : nat) (l : list (string * json)) (k : string) :
  terminated (members_k lvl l k) = true.
Proof. destruct l; reflexivity. Qed.

Lemma length_member_k (lvl : nat) (m : string * json) (k : string) :
  (String.length (dumps_k m.2 lvl k) + 4 ≤ String.length (member_k lvl m k))%nat.
Proof.
  unfold PyJson.member_k.
  pose proof (length_string_k m.1 (String ":" (String " " (dumps_k m.2 lvl k)))) as H.
  cbn [String.length] in H. lia.
Qed.

Lemma length_members_k (lvl : nat) (l : list (string * json)) (k : string) :
  Forall (fun m => roundtrips m.2) l →
  String.length k < String.length (members_k lvl l k).
Proof.
  induction 1 as [|m l Hm _ IH].
  - rewrite members_k_nil, length_newline_k. simpl. lia.
  - rewrite members_k_cons. cbn [String.length]. rewrite length_newline_k.
    destruct (Hm (S lvl) (members_k lvl l k)) as [Hlen _].
    pose proof (length_member_k (S lvl) m (members_k lvl l k)). lia.
Qed.

Lemma parse_members_ok (l : list (string * json)) :
  ∀ (m : string * json) (fuel : nat) (acc : list (string * json)) (lvl : nat)
    (k : string),
    roundtrips m.2 → Forall (fun m => roundtrips m.2) l →
    NoDup (map fst (acc ++ m :: l)) → terminated k = true →
    String.length (member_k (S lvl) m (members_k lvl l k)) + 1
      < fuel + String.length k →
    parse_members fuel (member_k (S lvl) m (members_k lvl l k)) acc
    = Ok (JObj (acc ++ m :: l), k).
Proof.
  induction l as [|m' l IH]; intros m fuel acc lvl k Hm Hl Hnd Hk Hfuel.
  - destruct (Hm (S lvl) (members_k lvl [] k)) as (Hlen & _ & Hp).
    pose proof (length_members_k lvl [] k Hl) as Hk1.
    pose proof (length_member_k (S lvl) m (members_k lvl [] k)) as Hm1.
    destruct fuel as [|fuel]; [lia|]. rewrite parse_members_member.
    rewrite Hp; [|apply terminated_members_k | lia].
    rewrite members_k_nil, skip_ws_newline_k.
    change (skip_ws (String "}" ?s)) with (String "}" s). cbn beta iota.
    change (Ascii.eqb "}" ",") with false. change (Ascii.eqb "}" "}") with true.
    cbn iota. rewrite dict_set_fresh; [destruct m; reflexivity|].
    rewrite map_app in Hnd. apply NoDup_app in Hnd as (_ & Hfresh & _).
    intros Hin. apply (Hfresh _ Hin). left.
  - destruct (Hm (S lvl) (members_k lvl (m' :: l) k)) as (Hlen & _ & Hp).
    pose proof (length_members_k lvl (m' :: l) k Hl) as Hk1.
    pose proof (length_member_k (S lvl) m (members_k lvl (m' :: l) k)) as Hm1.
    destruct fuel as [|fuel]; [lia|]. rewrite parse_members_member.
    rewrite Hp; [|apply terminated_members_k | lia].
    rewrite members_k_cons in Hlen, Hfuel, Hm1 |- *. cbn [String.length] in Hlen.
    rewrite length_newline_k in Hlen.
    change (skip_ws (String "," ?s)) with (String "," s). cbn beta iota.
    change (Ascii.eqb "," ",") with true. cbn iota.
    rewrite <- parse_members_skip_ws, skip_ws_newline_k, parse_members_skip_ws.
    inversion Hl as [|? ? Hm' Hl']; subst.
    assert (m.1 ∉ map fst acc) as Hfresh.
    { rewrite map_app in Hnd. apply NoDup_app in Hnd as (_ & Hfresh & _).
      intros Hin. apply (Hfresh _ Hin). left. }
    rewrite (dict_set_fresh _ _ _ Hfresh).
    rewrite (IH m' fuel (acc ++ [(m.1, m.2)]) lvl k Hm' Hl'); [| |exact Hk|lia].
    + rewrite <- app_assoc. destruct m; reflexivity.
    + rewrite <- app_assoc. destruct m; exact Hnd.
Qed.

Lemma roundtrips_obj (kv : list (string * json)) :
  NoDup (map fst kv) → Forall (fun m => roundtrips m.2) kv → roundtrips (JObj kv).
Proof.
  intros Hnd Hkv lvl k. destruct Hkv as [|m l Hm Hl].
  - split; [simpl; lia|]. split; [split; reflexivity|].
    intros _ fuel Hfuel. destruct fuel; [simpl in Hfuel; lia | reflexivity].
  - rewrite dumps_k_obj_cons. cbn [String.length]. rewrite length_newline_k.
    destruct (Hm (S lvl) (members_k lvl l k)) as (Hlen & _ & _).
    pose proof (length_members_k lvl l k Hl) as Hk1.
    pose proof (length_member_k (S lvl) m (members_k lvl l k)) as Hm1.
    split; [lia|]. split; [split; reflexivity|].
    intros Hk fuel Hfuel. destruct fuel as [|fuel]; [lia|].
    rewrite parse_value_object, skip_ws_newline_k.
    assert (parse_members fuel (member_k (S lvl) m (members_k lvl l k)) []
            = Ok (JObj (m :: l), k)) as Hmembers
      by (apply (parse_members_ok l m fuel [] lvl k Hm Hl Hnd Hk); lia).
    revert Hmembers. unfold PyJson.member_k, string_k.
    change (skip_ws (String quote ?s)) with (String quote s). cbn beta iota.
    change (Ascii.eqb quote "}") with false. cbn iota. trivial.
Qed.

Lemma loads_dumps (v : json) :
  roundtrips v → loads str_to_float (dumps float_repr v) = Ok v.
Proof.
  intros Hv. unfold loads, dumps.
  destruct (Hv 0 EmptyString) as (_ & _ & Hp).
  rewrite Hp; [reflexivity | reflexivity | lia].
Qed.

(** *** The result artifact *)

Ltac distinct_keys :=
  cbn [map fst];
  repeat (apply NoDup_cons; split;
          [rewrite ?not_elem_of_cons; repeat split; try discriminate;
           apply not_elem_of_nil|]);
  apply NoDup_nil; exact I.

Lemma roundtrips_bbox (bbox : list (list pyfloat)) :
  Forall (Forall (float_text_ok float_repr str_to_float)) bbox →
  roundtrips (JArr (map (fun pt => JArr (map JFloat pt)) bbox)).
Proof.
  intros H. apply roundtrips_arr, Forall_map.
  eapply Forall_impl; [exact H|]. intros pt Hpt. cbn beta.
  apply roundtrips_arr, Forall_map.
  eapply Forall_impl; [exact Hpt|]. intros x. apply roundtrips_float.
Qed.

Lemma roundtrips_detection (d : detection) :
  Forall (float_text_ok float_repr str_to_float) (floats_of_detection d) →
  roundtrips (detection_to_json d).
Proof.
  unfold floats_of_detection, detection_to_json. intros H.
  apply Forall_cons in H as [Hc Hb]. apply Forall_concat in Hb.
  apply roundtrips_obj; [distinct_keys|].
  repeat apply List.Forall_cons; [| | |apply List.Forall_nil]; cbn [snd].
  - apply roundtrips_str.
  - apply roundtrips_float, Hc.
  - apply roundtrips_bbox, Hb.
Qed.

Lemma roundtrips_page (p : page_result) :
  Forall (float_text_ok float_repr str_to_float)
         (concat (map floats_of_detection (items p))) →
  roundtrips (page_to_json p).
Proof.
  unfold page_to_json. intros H. apply Forall_concat in H. apply (proj1 (List.Forall_map _ _ _)) in H.
  apply roundtrips_obj; [distinct_keys|].
  repeat apply List.Forall_cons; [| |apply List.Forall_nil]; cbn [snd].
  - apply roundtrips_int.
  - apply roundtrips_arr, Forall_map.
    eapply Forall_impl; [exact H|]. intros d. apply roundtrips_detection.
Qed.

Lemma roundtrips_pages (pages : list page_result) :
  Forall (float_text_ok float_repr str_to_float) (floats_of_pages pages) →
  roundtrips (pages_to_json pages).
Proof.
  unfold floats_of_pages, pages_to_json. intros H.
  apply Forall_concat in H. apply (proj1 (List.Forall_map _ _ _)) in H.
  apply roundtrips_arr, Forall_map.
  eapply Forall_impl; [exact H|]. intros p. apply roundtrips_page.
Qed.

Lemma map_injective {A B : Type} (f : A → B) :
  (∀ x y, f x = f y → x = y) → ∀ l l', map f l = map f l' → l = l'.
Proof.
  intros Hf. induction l as [|x l IH]; intros [|y l'] E; try discriminate; [reflexivity|].
  injection E as Hxy E. rewrite (Hf _ _ Hxy), (IH _ E). reflexivity.
Qed.

Lemma detection_to_json_inj (d d' : detection) :
  detection_to_json d = detection_to_json d' → d = d'.
Proof.
  destruct d as [t c b], d' as [t' c' b']. unfold detection_to_json. cbn.
  intros [= -> -> Hb]. f_equal. revert Hb. apply map_injective.
  intros pt pt' [= Hpt]. revert Hpt. apply map_injective. intros x y [= ->]. reflexivity.
Qed.

Lemma pages_to_json_inj (pages pages' : list page_result) :
  pages_to_json pages = pages_to_json pages' → pages = pages'.
Proof.
  unfold pages_to_json. intros [= E]. revert E. apply map_injective.
  intros [n its] [n' its']. unfold page_to_json. cbn.
  intros [= Hn Hits]. apply Nat2Z.inj in Hn as ->. f_equal.
  revert Hits. apply map_injective. exact detection_to_json_inj.
Qed.

(** C8. The result artifact read back is the result that was written: for
    every list of pages whose finite confidences and coordinates are floats
    that [repr] writes as a JSON number and [float] reads back,
    [json.loads(json.dumps(pages, indent=2))] returns the value of [pages],
    with the same page numbers and, for each detection, the same text,
    confidence and bounding box; and that value is the value of no other
    list of pages. A NaN or an infinity is read back as it was written. *)
Theorem artifact_round_trip (pages : list page_result) :
  Forall (float_text_ok float_repr str_to_float) (floats_of_pages pages) →
  PyJson.loads str_to_float (PyJson.dumps float_repr (pages_to_json pages))
    = Ok (pages_to_json pages)
  ∧ ∀ pages', pages_to_json pages' = pages_to_json pages → pages' = pages.
Proof.
  intros H. split.
  - apply loads_dumps, roundtrips_pages, H.
  - intros pages'. apply pages_to_json_inj.
Qed.

End Pipeline.

Example parse_languages_none : _parse_languages None = ["en"].
Proof. reflexivity. Qed.

Example parse_languages_empty : _parse_languages (Some EmptyString) = ["en"].
Proof. reflexivity. Qed.

Example parse_languages_blank : _parse_languages (Some " , ,, ") = ["en"].
Proof. reflexivity. Qed.

Example parse_languages_two : _parse_languages (Some " en , fr,") = ["en"; "fr"].
Proof. reflexivity. Qed.

Lemma parse_languages_nonempty_witness :
  _parse_languages (Some " , ,, ") = ["en"].
Proof.
  apply (parse_languages_nonempty (Some " , ,, ")).
  vm_compute. repeat constructor.
Defined.

(** ** The extractor on concrete engine output *)

(** C2, as stated, fails: a point holding an element that [float] rejects
    makes the [try] body raise, and the fallback of line 57 raises again, out
    of the extractor. *)
Lemma normalization_raises_on_bad_element :
  extract_loop (1 # 5)
    [(Seq [Seq [Num 0; Num 0]; Seq [Num 10; Opaque];
           Seq [Num 10; Num 5]; Seq [Num 0; Num 5]], "Name:", Num (9 # 10))] []
  = Raise (TypeError "float() argument must be a string or a real number").
Proof. reflexivity. Qed.

(** Points that are not 2-tuples go through the fallback as flat lists. *)
Example normalization_flat_points :
  normalize_bbox (Seq [Seq [Num 1; Num 2; Num 3]; Num 4; Seq []])
  = Ok [[Fin 1; Fin 2; Fin 3]; [Fin 4]; []].
Proof. reflexivity. Qed.

Lemma extract_total_on_coercible_witness :
  ∃ res,
    extract_loop (1 # 5)
      [(Seq [Seq [Num 1; Num 2; Num 3]; Num 4], "Name:", Num (9 # 10));
       (Demo.quad, "  ", Opaque)] [] = Ok res.
Proof.
  destruct (extract_total_on_coercible (1 # 5)
              [(Seq [Seq [Num 1; Num 2; Num 3]; Num 4], "Name:", Num (9 # 10));
               (Demo.quad, "  ", Opaque)]) as (res & Hres & _).
  - repeat (apply List.Forall_cons; [split; reflexivity|]).
    apply List.Forall_nil.
  - exists res. exact Hres.
Defined.

(** C3, as stated, fails: a confidence that [float] rejects and whose
    [item()] is rejected too raises out of the [except] clause, and the
    detection after it is never looked at. *)
Lemma confidence_item_raises :
  extract_loop (1 # 5)
    [(Demo.quad, "Name:", Boxed Opaque); (Demo.quad, "Date:", Num (9 # 10))] []
  = Raise (TypeError "float() argument must be a string or a real number").
Proof. reflexivity. Qed.

Lemma confidence_without_item_is_zero_witness :
  coerce_confidence Opaque = Ok (Fin 0)
  ∧ extract_loop (1 # 5)
      ([] ++ (Demo.quad, "Name:", Opaque) :: [(Demo.quad, "Date:", Num (9 # 10))]) []
    = extract_loop (1 # 5) ([] ++ [(Demo.quad, "Date:", Num (9 # 10))]) [].
Proof.
  destruct (confidence_without_item_is_zero Opaque eq_refl) as [H _].
  destruct (H eq_refl) as [H0 Hskip].
  split; [exact H0|]. apply Hskip. reflexivity.
Defined.

(** C5, as stated, fails in its upper bound: the extractor passes the
    engine's confidence through and never compares it with 1. *)
Lemma confidence_above_one_is_emitted :
  extract_loop (1 # 5) [(Demo.quad, "Name:", Num (3 # 2))] []
  = Ok [Detection "Name:" (3 # 2) Demo.quad_box]
  ∧ float_le (Fin (3 # 2)) (Fin 1) = false.
Proof. split; reflexivity. Qed.

(** A NaN confidence is never below the threshold, so it is emitted. *)
Example nan_confidence_is_emitted :
  extract_loop (1 # 5) [(Demo.quad, "Name:", Num NaN)] []
  = Ok [Detection "Name:" NaN Demo.quad_box].
Proof. reflexivity. Qed.

Example boundary_confidence_is_kept :
  extract_loop (1 # 5) [(Demo.quad, " Name: ", Num (1 # 5))] []
  = Ok [Detection "Name:" (1 # 5) Demo.quad_box].
Proof. reflexivity. Qed.

Lemma extractor_filter_witness :
  Forall (kept_ok (1 # 5) [(Demo.quad, " Name: ", Num (1 # 5))])
    [Detection "Name:" (1 # 5) Demo.quad_box].
Proof.
  apply (extractor_filter (1 # 5) [(Demo.quad, " Name: ", Num (1 # 5))]).
  reflexivity.
Defined.

(** ** The document pipeline on the concrete environment *)

(** The scenario of three pages: 0.9 on page 1, nothing on page 2, 0.1 on
    page 3, threshold 0.2. *)
Example three_page_scenario :
  extract_pdf_text Demo.load_models Demo.readtext Demo.fitz_open
    Demo.get_pixmap_rgb "job/document.pdf" ["en"] 300 (2 # 10) false None
  = Ok [PageResult 1 [Detection "Name:" (9 # 10)
                        Demo.quad_box];
        PageResult 2 [];
        PageResult 3 []].
Proof. reflexivity. Qed.

Lemma extract_pdf_text_pages_witness :
  ∃ document,
    Demo.fitz_open "job/document.pdf" = Ok document
    ∧ length [PageResult 1 [Detection "Name:" (9 # 10)
                              Demo.quad_box];
              PageResult 2 []; PageResult 3 []] = length document
    ∧ map page_number
        [PageResult 1 [Detection "Name:" (9 # 10)
                         Demo.quad_box];
         PageResult 2 []; PageResult 3 []] = seq 1 (length document).
Proof.
  apply (extract_pdf_text_pages Demo.load_models Demo.readtext Demo.fitz_open
           Demo.get_pixmap_rgb "job/document.pdf" ["en"] 300 (2 # 10) false None).
  reflexivity.
Defined.

Lemma preloaded_reader_reuse_ignores_its_languages_witness :
  select_reader (preload Demo.load_models (Some "fr") None) ["en"]
  = Some (MkReader ["fr"] false).
Proof.
  apply (preloaded_reader_reuse_ignores_its_languages Demo.load_models).
  reflexivity.
Defined.

Lemma malformed_options_fall_back_witness :
  ∃ j,
    upload Demo.str_to_int Demo.str_to_float (Server ∅ ∅) Demo.request "0123456789ab"
    = Redirect "0123456789ab"
        (Server (write_text (mkdir ∅ "0123456789ab") "0123456789ab"
                   "document.pdf" "%PDF-1.4")
                (<["0123456789ab" := j]> ∅))
    ∧ job_dpi j = 300%Z ∧ job_min_conf j = 2 # 10 ∧ job_langs j = ["en"].
Proof.
  destruct (malformed_options_fall_back Demo.str_to_int Demo.str_to_float
              (Server ∅ ∅) Demo.request "0123456789ab" "form.pdf" "%PDF-1.4"
              eq_refl ltac:(discriminate))
    as (j & Hup & Hdpi & Hconf & Hlang).
  exists j. split; [exact Hup|]. split; [|split].
  - apply (Hdpi "high"); reflexivity.
  - apply (Hconf "lots"); reflexivity.
  - apply Hlang. right. reflexivity.
Defined.

(** ** The job workspace on the concrete environment *)

Example corrupt_pdf_leaves_error_only :
  _worker Demo.load_models Demo.readtext Demo.fitz_open Demo.get_pixmap_rgb
    Demo.json_dumps None
    (write_text (mkdir ∅ "corrupt") "corrupt" "document.pdf" "garbage")
    (Job "corrupt" ["en"] 300 (2 # 10)) !! "corrupt"
  = Some (<["error.txt" := "cannot open broken document"]>
            (<["document.pdf" := "garbage"]> ∅)).
Proof. reflexivity. Qed.

Lemma terminal_artifact_exclusive_witness :
  workspace_ok
    (finish_worker Demo.load_models Demo.readtext Demo.fitz_open
       Demo.get_pixmap_rgb Demo.json_dumps None
       (Server (write_text (mkdir ∅ "0123456789ab") "0123456789ab"
                  "document.pdf" "%PDF-1.4")
               (<["0123456789ab" := Job "0123456789ab" ["en"] 300 (2 # 10)]> ∅))
       (Job "0123456789ab" ["en"] 300 (2 # 10))).
Proof.
  apply (terminal_artifact_exclusive Demo.load_models Demo.readtext
           Demo.fitz_open Demo.get_pixmap_rgb Demo.json_dumps
           Demo.str_to_int Demo.str_to_float None).
  eapply reach_step.
  - eapply reach_step.
    + apply reach_init.
    + apply (step_upload _ _ _ _ _ _ _ _ (Server ∅ ∅) Demo.request
               "0123456789ab"); reflexivity.
  - apply (step_worker Demo.load_models Demo.readtext Demo.fitz_open
             Demo.get_pixmap_rgb Demo.json_dumps Demo.str_to_int
             Demo.str_to_float None _ (Job "0123456789ab" ["en"] 300 (2 # 10))).
    reflexivity.
Defined.

Lemma view_prefers_result_witness :
  view Demo.json_loads Demo.secure_filename
    (<["job1" := <["error.txt" := "late failure"]>
                   (<["ocr.json" := "[...]"]>
                      (<["document.pdf" := "%PDF-1.4"]> ∅))]> ∅) "job1"
  = Rendered 200
      (ViewPage "job1"
         (JArr [JObj [("page", JInt 1);
                      ("items", JArr [JObj [("text", JStr "Name:")]])]])
         "Name:").
Proof.
  apply (view_prefers_result Demo.json_loads Demo.secure_filename _ "job1"
           "%PDF-1.4" "[...]" "late failure"); reflexivity.
Defined.

Example view_processing_shows_error :
  view Demo.json_loads Demo.secure_filename
    (<["job1" := <["error.txt" := "cannot open broken document"]>
                   (<["document.pdf" := "garbage"]> ∅)]> ∅) "job1"
  = Rendered 202 (ProcessingPage "job1" (Some "cannot open broken document")).
Proof. reflexivity. Qed.

Example view_unknown_job :
  view Demo.json_loads Demo.secure_filename ∅ "nope" = Abort404.
Proof. reflexivity. Qed.

(** ** Further runs on the concrete environment *)

Lemma normalize_bbox_shape_witness :
  ∃ pts, Seq [Seq [Num 1; Num 2; Num 3]; Num 4] = Seq pts
         ∧ Forall2 (fun pt out =>
                      Forall2 (fun v q => py_float v = Ok q)
                              (point_elements pt) out)
                   pts [[Fin 1; Fin 2; Fin 3]; [Fin 4]].
Proof.
  apply (normalize_bbox_shape (Seq [Seq [Num 1; Num 2; Num 3]; Num 4])).
  reflexivity.
Defined.

Lemma extract_preserves_order_witness :
  [Detection "Name:" (9 # 10) Demo.quad_box;
   Detection "Date:" (1 # 2) Demo.quad_box]
  = omap (emitted (1 # 5))
      [(Demo.quad, " Name: ", Num (9 # 10));
       (Opaque, "smudge", Num (1 # 10));
       (Demo.quad, "Date:", Num (1 # 2))].
Proof.
  apply (extract_preserves_order (1 # 5)
           [(Demo.quad, " Name: ", Num (9 # 10));
            (Opaque, "smudge", Num (1 # 10));
            (Demo.quad, "Date:", Num (1 # 2))]).
  reflexivity.
Defined.

Lemma extract_threshold_monotone_witness :
  extract_loop (3 # 5)
    [(Demo.quad, " Name: ", Num (9 # 10)); (Demo.quad, "Date:", Num (1 # 2))] []
  = Ok (List.filter (fun d => negb (float_lt (det_confidence d) (3 # 5)))
          [Detection "Name:" (9 # 10) Demo.quad_box;
           Detection "Date:" (1 # 2) Demo.quad_box]).
Proof.
  apply (extract_threshold_monotone (1 # 5) (3 # 5)).
  - reflexivity.
  - reflexivity.
Defined.

Lemma extract_pdf_text_per_page_witness :
  ∃ r document,
    r = MkReader ["en"] false
    ∧ Demo.fitz_open "job/document.pdf" = Ok document
    ∧ Forall2 (fun page pr =>
                 ∃ img, _load_page_as_array Demo.get_pixmap_rgb page 300 = Ok img
                        ∧ _extract_page_text Demo.readtext r img (2 # 10)
                          = Ok (items pr))
        document
        [PageResult 1 [Detection "Name:" (9 # 10)
                         Demo.quad_box];
         PageResult 2 []; PageResult 3 []].
Proof.
  apply (extract_pdf_text_per_page Demo.load_models Demo.readtext
           Demo.fitz_open Demo.get_pixmap_rgb "job/document.pdf" ["fr"] 300
           (2 # 10) false (Some (MkReader ["en"] false))).
  reflexivity.
Defined.

Lemma extract_pdf_text_bad_page_witness :
  extract_pdf_text Demo.load_models Demo.readtext Demo.fitz_open
    (fun page zoom => if Nat.eqb page 2
                      then Raise (ExternalError "cannot render page")
                      else Ok page)
    "job/document.pdf" ["en"] 300 (2 # 10) false None
  = Raise (ExternalError "cannot render page").
Proof.
  apply (extract_pdf_text_bad_page Demo.load_models Demo.readtext
           Demo.fitz_open _ "job/document.pdf" ["en"] 300 (2 # 10) false
           None (MkReader ["en"] false) [1] 2 [3]); reflexivity.
Defined.

Lemma upload_stores_document_witness :
  ∃ s', upload Demo.str_to_int Demo.str_to_float (Server ∅ ∅) Demo.request "0123456789ab"
        = Redirect "0123456789ab" s'
        ∧ read_text (uploads s') "0123456789ab" "document.pdf" = Some "%PDF-1.4".
Proof.
  destruct (upload_stores_document Demo.str_to_int Demo.str_to_float
              (Server ∅ ∅) Demo.request "0123456789ab" "form.pdf" "%PDF-1.4"
              eq_refl ltac:(discriminate)) as (s' & Hup & Hdoc & _).
  exists s'. split; [exact Hup|exact Hdoc].
Defined.

Lemma upload_ignores_other_fields_witness :
  upload Demo.str_to_int Demo.str_to_float (Server ∅ ∅)
    (UploadRequest (Some ("form.pdf", "%PDF-1.4"))
       (<["min_confidence" := "0.5"]> (<["dpi" := "150"]> ∅))) "0123456789ab"
  = upload Demo.str_to_int Demo.str_to_float (Server ∅ ∅)
      (UploadRequest (Some ("form.pdf", "%PDF-1.4")) (<["dpi" := "150"]> ∅))
      "0123456789ab".
Proof.
  apply (upload_ignores_other_fields Demo.str_to_int Demo.str_to_float);
    discriminate.
Defined.

Lemma upload_passes_options_unchecked_witness :
  ∃ s' j,
    upload (fun v => if String.eqb v "-5" then Ok (-5)%Z
                     else Raise (ValueError "invalid literal"))
      (fun v => if String.eqb v "7.5" then Ok (Fin (15 # 2))
                else Raise (ValueError "could not convert"))
      (Server ∅ ∅)
      (UploadRequest (Some ("form.pdf", "%PDF-1.4"))
         (<["min_conf" := "7.5"]> (<["dpi" := "-5"]> ∅))) "0123456789ab"
    = Redirect "0123456789ab" s'
    ∧ threads s' !! "0123456789ab" = Some j
    ∧ job_dpi j = (-5)%Z ∧ job_min_conf j = 15 # 2.
Proof.
  destruct (upload_passes_options_unchecked
              (fun v => if String.eqb v "-5" then Ok (-5)%Z
                        else Raise (ValueError "invalid literal"))
              (fun v => if String.eqb v "7.5" then Ok (Fin (15 # 2))
                        else Raise (ValueError "could not convert"))
              (Server ∅ ∅)
              (UploadRequest (Some ("form.pdf", "%PDF-1.4"))
                 (<["min_conf" := "7.5"]> (<["dpi" := "-5"]> ∅)))
              "0123456789ab" "form.pdf" "%PDF-1.4" eq_refl
              ltac:(discriminate)) as (s' & j & Hup & Hj & Hdpi & Hconf).
  exists s', j. split; [exact Hup|]. split; [exact Hj|]. split.
  - apply (Hdpi "-5"); reflexivity.
  - apply (Hconf "7.5"); reflexivity.
Defined.

Lemma worker_touches_only_artifacts_witness :
  read_text
    (_worker Demo.load_models Demo.readtext Demo.fitz_open Demo.get_pixmap_rgb
       Demo.json_dumps None
       (write_text (mkdir ∅ "corrupt") "corrupt" "document.pdf" "garbage")
       (Job "corrupt" ["en"] 300 (2 # 10))) "corrupt" "document.pdf"
  = read_text (write_text (mkdir ∅ "corrupt") "corrupt" "document.pdf" "garbage")
      "corrupt" "document.pdf".
Proof.
  apply (worker_touches_only_artifacts Demo.load_models Demo.readtext
           Demo.fitz_open Demo.get_pixmap_rgb Demo.json_dumps).
  right. split; discriminate.
Defined.

Lemma demo_reachable :
  reachable Demo.load_models Demo.readtext Demo.fitz_open Demo.get_pixmap_rgb
    Demo.json_dumps Demo.str_to_int Demo.str_to_float None
    (Server (write_text (mkdir ∅ "0123456789ab") "0123456789ab"
               "document.pdf" "%PDF-1.4")
            (<["0123456789ab" := Job "0123456789ab" ["en"] 300 (2 # 10)]> ∅)).
Proof.
  eapply reach_step.
  - apply reach_init.
  - apply (step_upload _ _ _ _ _ _ _ _ (Server ∅ ∅) Demo.request
             "0123456789ab"); reflexivity.
Qed.

Lemma files_are_written_once_witness :
  read_text
    (uploads
       (finish_worker Demo.load_models Demo.readtext Demo.fitz_open
          Demo.get_pixmap_rgb Demo.json_dumps None
          (Server (write_text (mkdir ∅ "0123456789ab") "0123456789ab"
                     "document.pdf" "%PDF-1.4")
                  (<["0123456789ab" := Job "0123456789ab" ["en"] 300 (2 # 10)]> ∅))
          (Job "0123456789ab" ["en"] 300 (2 # 10))))
    "0123456789ab" "document.pdf"
  = Some "%PDF-1.4".
Proof.
  apply (files_are_written_once Demo.load_models Demo.readtext Demo.fitz_open
           Demo.get_pixmap_rgb Demo.json_dumps Demo.str_to_int
           Demo.str_to_float None _ _ _ _ _ demo_reachable).
  - apply (step_worker Demo.load_models Demo.readtext Demo.fitz_open
             Demo.get_pixmap_rgb Demo.json_dumps Demo.str_to_int
             Demo.str_to_float None _ (Job "0123456789ab" ["en"] 300 (2 # 10))).
    reflexivity.
  - reflexivity.
Defined.

Lemma downloads_follow_view_witness :
  get_ocr_json Demo.secure_filename
    (write_text (mkdir ∅ "0123456789ab") "0123456789ab" "document.pdf" "%PDF-1.4")
    "0123456789ab"
  = FileNotFound.
Proof.
  destruct (downloads_follow_view Demo.load_models Demo.readtext Demo.fitz_open
              Demo.get_pixmap_rgb Demo.json_dumps Demo.json_loads
              Demo.str_to_int Demo.str_to_float Demo.secure_filename None
              _ "0123456789ab" _ demo_reachable eq_refl eq_refl)
    as (_ & _ & Hrun).
  apply Hrun. eexists. reflexivity.
Defined.

Lemma view_after_upload_witness :
  view Demo.json_loads Demo.secure_filename
    (write_text (mkdir ∅ "0123456789ab") "0123456789ab" "document.pdf" "%PDF-1.4")
    "0123456789ab"
  = Rendered 202 (ProcessingPage "0123456789ab" None).
Proof.
  apply (view_after_upload Demo.json_loads Demo.str_to_int Demo.str_to_float
           Demo.secure_filename (Server ∅ ∅) Demo.request "0123456789ab"
           (Server _ (<["0123456789ab" := Job "0123456789ab" ["en"] 300 (2 # 10)]> ∅)));
    reflexivity.
Defined.

Lemma view_after_failure_witness :
  view Demo.json_loads Demo.secure_filename
    (uploads
       (finish_worker Demo.load_models Demo.readtext Demo.fitz_open
          Demo.get_pixmap_rgb Demo.json_dumps None
          (Server (write_text (mkdir ∅ "corrupt") "corrupt" "document.pdf"
                     "%PDF-1.4")
                  (<["corrupt" := Job "corrupt" ["en"] 300 (2 # 10)]> ∅))
          (Job "corrupt" ["en"] 300 (2 # 10))))
    "corrupt"
  = Rendered 202 (ProcessingPage "corrupt" (Some "cannot open broken document")).
Proof.
  apply (view_after_failure Demo.load_models Demo.readtext Demo.fitz_open
           Demo.get_pixmap_rgb Demo.json_dumps Demo.json_loads Demo.str_to_int
           Demo.str_to_float Demo.secure_filename None (Server ∅ ∅)
           Demo.request "corrupt" _ (Job "corrupt" ["en"] 300 (2 # 10))
           (ExternalError "cannot open broken document"));
    reflexivity.
Defined.

Lemma view_after_success_witness :
  view (fun _ => Ok (pages_to_json
                       [PageResult 1 [Detection "Name:" (9 # 10)
                                        Demo.quad_box];
                        PageResult 2 []; PageResult 3 []]))
    Demo.secure_filename
    (uploads
       (finish_worker Demo.load_models Demo.readtext Demo.fitz_open
          Demo.get_pixmap_rgb Demo.json_dumps None
          (Server (write_text (mkdir ∅ "0123456789ab") "0123456789ab"
                     "document.pdf" "%PDF-1.4")
                  (<["0123456789ab" := Job "0123456789ab" ["en"] 300 (2 # 10)]> ∅))
          (Job "0123456789ab" ["en"] 300 (2 # 10))))
    "0123456789ab"
  = Rendered 200
      (ViewPage "0123456789ab"
         (pages_to_json
            [PageResult 1 [Detection "Name:" (9 # 10)
                             Demo.quad_box];
             PageResult 2 []; PageResult 3 []])
         "Name:").
Proof.
  apply (view_after_success Demo.load_models Demo.readtext Demo.fitz_open
           Demo.get_pixmap_rgb Demo.json_dumps _ Demo.str_to_int
           Demo.str_to_float Demo.secure_filename None (Server ∅ ∅)
           Demo.request "0123456789ab" _ (Job "0123456789ab" ["en"] 300 (2 # 10))
           [PageResult 1 [Detection "Name:" (9 # 10)
                            Demo.quad_box];
            PageResult 2 []; PageResult 3 []]);
    reflexivity.
Defined.

Lemma preloaded_en_reuse_iff_same_set_witness :
  select_reader (preload Demo.load_models None None) ["en"; "en"]
  = Some (MkReader ["en"] false).
Proof.
  apply (preloaded_en_reuse_iff_same_set Demo.load_models None None
           (MkReader ["en"] false) ["en"; "en"]).
  - reflexivity.
  - simpl. set_solver.
  - simpl. set_solver.
Defined.

Example env_flag_examples :
  env_flag (Some " TRUE ") = true ∧ env_flag (Some "On") = true
  ∧ env_flag (Some "0") = false ∧ env_flag (Some "") = false.
Proof. repeat split; reflexivity. Qed.

Example cli_parse_languages_examples :
  OcrExtract._parse_languages " en , fr," = Ok ["en"; "fr"]
  ∧ is_ok (OcrExtract._parse_languages " , ") = false.
Proof. split; reflexivity. Qed.

Lemma artifact_round_trip_witness :
  Forall (float_text_ok Demo.float_repr Demo.str_to_float)
         (floats_of_pages Demo.pages)
  ∧ PyJson.loads Demo.str_to_float
      (PyJson.dumps Demo.float_repr (pages_to_json Demo.pages))
    = Ok (pages_to_json Demo.pages).
Proof.
  assert (Forall (float_text_ok Demo.float_repr Demo.str_to_float)
                 (floats_of_pages Demo.pages)) as H
    by (repeat constructor).
  split; [exact H|].
  exact (proj1 (artifact_round_trip Demo.str_to_float Demo.float_repr Demo.pages H)).
Defined.

Example demo_pages :
  extract_pdf_text Demo.load_models Demo.readtext Demo.fitz_open
    Demo.get_pixmap_rgb "form.pdf" ["en"] 300 (1 # 5) false None
  = Ok Demo.pages.
Proof. reflexivity. Qed.

Example dumps_layout :
  PyJson.dumps Demo.float_repr
    (JArr [JInt 1; JFloat (1 # 2); JFloat NaN; JArr []; JObj []; JArr [JNull; JBool true]])
  = "[
  1,
  0.5,
  NaN,
  [],
  {},
  [
    null,
    true
  ]
]".
Proof. reflexivity. Qed.

Example loads_examples :
  PyJson.loads Demo.str_to_float " [1 ,0.5,[ ], { }, -Infinity,
      false ] "
  = Ok (JArr [JInt 1; JFloat (1 # 2); JArr []; JObj []; JFloat NegInf; JBool false])
  ∧ is_ok (PyJson.loads Demo.str_to_float "[1,]") = false
  ∧ is_ok (PyJson.loads Demo.str_to_float "[01]") = false
  ∧ is_ok (PyJson.loads Demo.str_to_float "[1] 2") = false.
Proof. repeat split; reflexivity. Qed.

Example artifact_text_keys :
  PyJson.dumps Demo.float_repr (JObj [("page", JInt 1); ("items", JArr [])])
  = String.append "{
  " (PyJson.string_k "page" (String.append ": 1,
  " (PyJson.string_k "items" ": []
}"))).
Proof. reflexivity. Qed.
